(** * Payment adapters and webhook route: a shallow embedding

    The repository holds three pieces of payment plumbing, all in
    [src/backend/eslint.config.mjs]:

    - the Express route [router.post('/payment/webhook')], which checks an
      HMAC-SHA384 signature before acknowledging a callback;
    - [CustomPaymentProviderService], a JavaScript adapter that caches a bearer
      token and talks to the processor through [axios];
    - [FoxPayProviderService], a TypeScript adapter that talks to the processor
      through [fetch] and turns every failure into an error value.

    The embedding keeps JavaScript values dynamic ([JsVal]), threads the
    observable world (clock, requests on the wire, the cached credential)
    through a state-and-exception monad [M], and leaves the primitives of the
    runtime (the HMAC, [JSON.stringify], number printing and parsing) and the
    processor on the other end of the wire as parameters.

    What the embedding abstracts from: every awaited promise settles (a
    request that never completes is a transport failure); strings are byte
    strings; numbers are exact rationals; an object is the finite map of its
    properties, without their order; values handed to a function are not
    mutated by it, as no function of this code assigns to its arguments. *)

From Stdlib Require Import QArith ZArith String Ascii DecimalString.
From stdpp Require Import base option gmap strings pretty list fin_maps.

#[local] Open Scope string_scope.
#[local] Open Scope Z_scope.

(** ** JavaScript values *)

(** Objects are finite maps from property names to values; an [Error] carries
    its name and message.  Numbers are exact rationals: the rounding of IEEE
    doubles and the infinities are outside the model. *)
#[warnings="-register-all"]
Inductive JsVal : Type :=
| JUndefined
| JNull
| JBool (b : bool)
| JNum (q : Q)
| JNaN
| JStr (s : string)
| JArr (l : list JsVal)
| JObj (o : gmap string JsVal)
| JError (name msg : string).

(** What a computation that may throw ends in. *)
Inductive Outcome (A : Type) : Type :=
| Return (a : A)
| Throw (e : JsVal).
Arguments Return {A} a.
Arguments Throw {A} e.

#[global] Instance Outcome_ret : MRet Outcome := @Return.
#[global] Instance Outcome_bind : MBind Outcome := λ A B f m,
  match m with
  | Return a => f a
  | Throw e => Throw e
  end.

#[global] Instance Outcome_fmap : FMap Outcome := λ A B f m,
  match m with
  | Return a => Return (f a)
  | Throw e => Throw e
  end.

(** Did it return, rather than throw? *)
Definition returned {A} (o : Outcome A) : bool :=
  match o with Return _ => true | Throw _ => false end.

(** [new TypeError(msg)], as the runtime raises it. *)
Definition TypeError (msg : string) : JsVal := JError "TypeError" msg.

(** [o.k] on a plain object: [undefined] when the property is absent. *)
Definition field (o : gmap string JsVal) (k : string) : JsVal :=
  default JUndefined (o !! k).

(** [v.k] where the read does not throw: an [Error] has [name] and
    [message]; on the values that are not objects none of the property names
    this code reads ([id], [status], [data], ...) is defined, so the read
    gives [undefined]. *)
Definition prop (v : JsVal) (k : string) : JsVal :=
  match v with
  | JObj o => field o k
  | JError name msg =>
      if String.eqb k "message" then JStr msg
      else if String.eqb k "name" then JStr name
      else JUndefined
  | _ => JUndefined
  end.

(** [v.k] on any value: reading a property of [undefined] or [null] throws. *)
Definition get_prop (v : JsVal) (k : string) : Outcome JsVal :=
  match v with
  | JUndefined =>
      Throw (TypeError ("Cannot read properties of undefined (reading '" ++ k ++ "')"))
  | JNull =>
      Throw (TypeError ("Cannot read properties of null (reading '" ++ k ++ "')"))
  | _ => Return (prop v k)
  end.

(** [v?.k] *)
Definition get_prop_opt (v : JsVal) (k : string) : JsVal := prop v k.

(** [v ?? d] *)
Definition nullish_or (v d : JsVal) : JsVal :=
  match v with
  | JUndefined | JNull => d
  | _ => v
  end.

(** [v === "s"] against a string literal; the only strict comparisons of this
    code ([===], [!==], [switch]) have a string on one side. *)
Definition strict_eq_str (v : JsVal) (s : string) : bool :=
  match v with
  | JStr s' => String.eqb s' s
  | _ => false
  end.

(** [a === b] where [a] was read out of a freshly decoded response body: the
    objects and arrays of such a body are new, so identical to no other value,
    and primitives compare by value ([NaN] equals nothing). *)
Definition strict_eq_fresh (a b : JsVal) : bool :=
  match a, b with
  | JUndefined, JUndefined | JNull, JNull => true
  | JBool x, JBool y => Bool.eqb x y
  | JNum x, JNum y => Qeq_bool x y
  | JStr x, JStr y => String.eqb x y
  | _, _ => false
  end.

(** JavaScript truthiness. *)
Definition truthy (v : JsVal) : bool :=
  match v with
  | JUndefined | JNull | JNaN => false
  | JBool b => b
  | JNum q => negb (Qeq_bool q 0)
  | JStr s => negb (String.eqb s "")
  | JArr _ | JObj _ | JError _ _ => true
  end.

(** [{...a, ...b}]: the properties of [b] win. *)
Definition spread (a b : gmap string JsVal) : gmap string JsVal := b ∪ a.

(** ASCII case mapping, as [toUpperCase] and [toLowerCase] act on the ASCII
    letters that currency codes and status words are made of. *)
Definition upper_ascii (c : ascii) : ascii :=
  let n := nat_of_ascii c in
  if ((97 <=? n) && (n <=? 122))%nat then ascii_of_nat (n - 32) else c.

Definition lower_ascii (c : ascii) : ascii :=
  let n := nat_of_ascii c in
  if ((65 <=? n) && (n <=? 90))%nat then ascii_of_nat (n + 32) else c.

Fixpoint map_string (f : ascii → ascii) (s : string) : string :=
  match s with
  | EmptyString => EmptyString
  | String c r => String (f c) (map_string f r)
  end.

Definition toUpperCase (v : JsVal) : Outcome JsVal :=
  match v with
  | JStr s => Return (JStr (map_string upper_ascii s))
  | JUndefined | JNull =>
      Throw (TypeError "Cannot read properties of undefined (reading 'toUpperCase')")
  | _ => Throw (TypeError "toUpperCase is not a function")
  end.

Definition toLowerCase (v : JsVal) : Outcome JsVal :=
  match v with
  | JStr s => Return (JStr (map_string lower_ascii s))
  | JUndefined | JNull =>
      Throw (TypeError "Cannot read properties of undefined (reading 'toLowerCase')")
  | _ => Throw (TypeError "toLowerCase is not a function")
  end.

(** ** The runtime and the processor *)

(** Primitives of the JavaScript runtime that the code calls and does not
    define. *)
Class Runtime := {
  (** [crypto.createHmac('sha384', key).update(msg).digest('hex')] *)
  hmac_sha384_hex : string → string → string;
  (** [JSON.stringify] of a value other than [undefined] *)
  stringify : JsVal → string;
  (** [String(n)] for a number *)
  Number_toString : Q → string;
  (** [Number(s)] for a string; [None] is [NaN] *)
  StringToNumber : string → option Q;
}.

(** An HTTP request as the adapters build it.  [req_body] is what the caller
    hands to the client: for [fetch] the serialised string (or [undefined]),
    for [axios] the object it serialises itself. *)
Record Request := mkRequest {
  req_method : string;
  req_url : string;
  req_headers : gmap string string;
  req_body : JsVal;
}.

(** A response: the status line, and what [text()] and [json()] settle to. *)
Record Response := mkResponse {
  res_status : Z;
  res_text : Outcome string;
  res_json : Outcome JsVal;
}.

Inductive Reply :=
| Unreachable (e : JsVal)
| Answer (r : Response).

(** The processor and the network between: what comes back for a request,
    given everything sent before, and how long it takes (in milliseconds). *)
Class Processor := {
  server : list Request → Request → Reply;
  latency : list Request → Request → Z;
}.

(** ** The world *)

(** The clock ([Date.now()], milliseconds), the requests sent so far, and the
    two mutable fields of the [CustomPaymentProviderService] instance. *)
Record Sys := mkSys {
  now : Z;
  wire : list Request;
  accessToken : JsVal;
  tokenExpiry : JsVal;
}.

Definition M (A : Type) : Type := Sys → Outcome A * Sys.

#[global] Instance M_ret : MRet M := λ A a s, (Return a, s).
#[global] Instance M_bind : MBind M := λ A B f m s,
  match m s with
  | (Return a, s') => f a s'
  | (Throw e, s') => (Throw e, s')
  end.

Definition throw {A} (e : JsVal) : M A := λ s, (Throw e, s).

Definition lift {A} (o : Outcome A) : M A := λ s, (o, s).

(** [try { body } catch (e) { handler e }]: what the body did to the world
    before it threw stays done. *)
Definition try_catch {A} (body : M A) (handler : JsVal → M A) : M A := λ s,
  match body s with
  | (Return a, s') => (Return a, s')
  | (Throw e, s') => handler e s'
  end.

(** [Date.now()] *)
Definition Date_now : M JsVal := λ s, (Return (JNum (inject_Z (now s))), s).

Definition set_accessToken (v : JsVal) : M unit := λ s,
  (Return tt, mkSys (now s) (wire s) v (tokenExpiry s)).

Definition set_tokenExpiry (v : JsVal) : M unit := λ s,
  (Return tt, mkSys (now s) (wire s) (accessToken s) v).

Definition get_accessToken : M JsVal := λ s, (Return (accessToken s), s).

Definition get_tokenExpiry : M JsVal := λ s, (Return (tokenExpiry s), s).

(** The property name of an index: its decimal numeral. *)
Definition index_key (n : nat) : string := pretty n.

(** The own enumerable properties an object spread copies out of a value:
    those of an object, the indexed elements of an array or characters of a
    string, nothing for the other values. *)
Definition own_props (v : JsVal) : gmap string JsVal :=
  match v with
  | JObj o => o
  | JArr l => list_to_map (imap (λ i x, (index_key i, x)) l)
  | JStr s =>
      list_to_map
        (imap (λ i c, (index_key i, JStr (String c EmptyString))) (list_ascii_of_string s))
  | _ => ∅
  end.

(** The first element the callback accepts, [undefined] when there is none;
    a callback that throws stops the search. *)
Fixpoint find_first (callback : JsVal → Outcome bool) (l : list JsVal) : Outcome JsVal :=
  match l with
  | [] => Return JUndefined
  | t :: rest =>
      accepted ← callback t;
      if accepted : bool then Return t else find_first callback rest
  end.

(** [v.find(callback)]: only an array has the method. *)
Definition array_find (callback : JsVal → Outcome bool) (v : JsVal) : Outcome JsVal :=
  match v with
  | JArr l => find_first callback l
  | JUndefined =>
      Throw (TypeError "Cannot read properties of undefined (reading 'find')")
  | JNull =>
      Throw (TypeError "Cannot read properties of null (reading 'find')")
  | _ => Throw (TypeError "queryResult.find is not a function")
  end.

Section Conversions.
Context {runtime : Runtime}.

(** [String(v)], as a template literal applies it. *)
Fixpoint ToString (v : JsVal) : string :=
  match v with
  | JUndefined => "undefined"
  | JNull => "null"
  | JBool b => if b then "true" else "false"
  | JNum q => Number_toString q
  | JNaN => "NaN"
  | JStr s => s
  | JArr l =>
      let element x :=
        match x with
        | JUndefined | JNull => ""
        | _ => ToString x
        end in
      (fix join (l : list JsVal) : string :=
         match l with
         | [] => ""
         | [x] => element x
         | x :: r => element x ++ "," ++ join r
         end) l
  | JObj _ => "[object Object]"
  | JError name msg => if String.eqb msg "" then name else name ++ ": " ++ msg
  end.

(** [Number(v)]; [None] is [NaN]. *)
Definition ToNumber (v : JsVal) : option Q :=
  match v with
  | JUndefined | JNaN | JObj _ | JError _ _ => None
  | JNull => Some 0%Q
  | JBool b => Some (if b then 1%Q else 0%Q)
  | JNum q => Some q
  | JStr s => StringToNumber s
  | JArr _ => StringToNumber (ToString v)
  end.

Definition arith (op : Q → Q → Q) (a b : JsVal) : JsVal :=
  match ToNumber a, ToNumber b with
  | Some x, Some y => JNum (Qred (op x y))
  | _, _ => JNaN
  end.

(** [a * b] *)
Definition js_mul : JsVal → JsVal → JsVal := arith Qmult.

(** [a / b]; the divisors of this code are the literal [100]. *)
Definition js_div : JsVal → JsVal → JsVal := arith Qdiv.

(** [a + b] on two numbers (the operands of the only [+] in this code,
    [Date.now() + expiresIn * 1000], are numbers). *)
Definition js_add : JsVal → JsVal → JsVal := arith Qplus.

(** [a >= b] with a number on the left: false when either side is [NaN]. *)
Definition js_ge (a b : JsVal) : bool :=
  match ToNumber a, ToNumber b with
  | Some x, Some y => Qle_bool y x
  | _, _ => false
  end.

(** [JSON.stringify(v)]: [undefined] stays [undefined]. *)
Definition JSON_stringify (v : JsVal) : JsVal :=
  match v with
  | JUndefined => JUndefined
  | _ => JStr (stringify v)
  end.
End Conversions.

(** ** The HTTP clients *)

Section Clients.
Context {runtime : Runtime} {processor : Processor}.

(** Put a request on the wire and wait for what comes back. *)
Definition send (r : Request) : M Reply := λ s,
  (Return (server (wire s) r),
   mkSys (now s + latency (wire s) r) (wire s ++ [r]) (accessToken s) (tokenExpiry s)).

(** [await fetch(url, {method, headers, body})]: rejects only when the
    request cannot be completed; any status line is a response. *)
Definition fetch (url method : string) (headers : gmap string string) (body : JsVal)
  : M Response :=
  reply ← send (mkRequest method url headers body);
  match reply with
  | Unreachable e => throw e
  | Answer r => mret r
  end.

(** [res.ok] *)
Definition res_ok (r : Response) : bool :=
  (200 <=? res_status r) && (res_status r <=? 299).

(** [await res.text()] and [await res.json()] *)
Definition text (r : Response) : M string := lift (res_text r).
Definition json (r : Response) : M JsVal := lift (res_json r).

(** [axios] with its defaults: a status outside 2xx rejects, and a body
    that does not parse as JSON is handed over as a string. *)
Definition axios_data (r : Response) : Outcome JsVal :=
  match res_json r with
  | Return v => Return v
  | Throw _ => s ← res_text r; Return (JStr s)
  end.

Definition axios (method url : string) (headers : gmap string string) (data : JsVal)
  : M JsVal :=
  reply ← send (mkRequest method url headers data);
  match reply with
  | Unreachable e => throw e
  | Answer r =>
      if res_ok r then
        d ← lift (axios_data r);
        mret (JObj {[ "status" := JNum (inject_Z (res_status r)); "data" := d ]})
      else
        throw (JError "AxiosError"
                 ("Request failed with status code " ++
                  Number_toString (inject_Z (res_status r))))
  end.

(** [axios.get(url, { params, headers })]: the query parameters travel in
    [req_body], under [params]. *)
Definition axios_get (url : string) (headers : gmap string string) (params : JsVal)
  : M JsVal :=
  axios "GET" url headers (JObj {[ "params" := params ]}).
End Clients.

(** ** The webhook route: [router.post('/payment/webhook')] *)

Module WebhookRoute.

(** What the handler reads of the Express request: the parsed body and the
    headers (Express lower-cases header names). *)
Record ExpressRequest := mkExpressRequest {
  body : JsVal;
  headers : gmap string string;
}.

(** [res.status(code).send(text)] *)
Inductive ExpressResponse :=
| Sent (status : Z) (text : string).

Section Route.
Context {runtime : Runtime}.
(** [process.env] *)
Variable process_env : gmap string string.

(** [crypto.createHmac('sha384', key)]: Node refuses a key that is not a
    string (or a buffer or key object) with a [TypeError]. *)
Definition createHmac (key : option string) : Outcome string :=
  match key with
  | Some k => Return k
  | None =>
      Throw (TypeError "The 'key' argument must be of type string. Received undefined")
  end.

(** [.update(data).digest('hex')]: [update] refuses data that is not a
    string (or a buffer). *)
Definition update_digest_hex (key : string) (data : JsVal) : Outcome string :=
  match data with
  | JStr msg => Return (hmac_sha384_hex key msg)
  | _ => Throw (TypeError "The 'data' argument must be of type string")
  end.

(** [hmac !== signature], where the header may be absent. *)
Definition strict_neq (hmac : string) (signature : option string) : bool :=
  match signature with
  | Some s => negb (String.eqb hmac s)
  | None => true
  end.

(** Lines 43 to 50 of the handler: the signature check. *)
Definition verify (reqBody : JsVal) (signature webhookSecret : option string)
  : Outcome bool :=
  let payload := JSON_stringify reqBody in
  key ← createHmac webhookSecret;
  hmac ← update_digest_hex key payload;
  Return (negb (strict_neq hmac signature)).

(** [const { paymentTransactionId, updatedStatus } = req.body] *)
Definition destructure_body (reqBody : JsVal) : Outcome (JsVal * JsVal) :=
  paymentTransactionId ← get_prop reqBody "paymentTransactionId";
  updatedStatus ← get_prop reqBody "updatedStatus";
  Return (paymentTransactionId, updatedStatus).

(** The handler.  A [Throw] is a rejection of the [async] handler: nothing
    is sent.  The [try] block of the source only sends the
    acknowledgement; the update of session and order is a comment. *)
Definition post_payment_webhook (req : ExpressRequest) : M ExpressResponse :=
  let signature := headers req !! "x-hmac-sha384" in
  let webhookSecret := process_env !! "PAYMENT_PROVIDER_WEBHOOK_SECRET" in
  verified ← lift (verify (body req) signature webhookSecret);
  if negb verified then mret (Sent 401 "Invalid signature")
  else
    _ ← lift (destructure_body (body req));
    try_catch
      (mret (Sent 200 "Webhook received"))
      (λ error, mret (Sent 500 "Internal server error")).
End Route.

End WebhookRoute.

(** ** [CustomPaymentProviderService] *)

Module CustomPaymentProvider.

Definition identifier : string := "custom-payment-provider".

(** The fields the constructor sets once; [accessToken] and [tokenExpiry]
    live in [Sys]. *)
Record Instance := mkInstance {
  apiUrl : string;
  authUrl : string;
  accessKey : JsVal;
  secretKey : JsVal;
}.

(** [process.env.K] *)
Definition env_get (process_env : gmap string string) (k : string) : JsVal :=
  match process_env !! k with
  | Some v => JStr v
  | None => JUndefined
  end.

(** [process.env.K || fallback] *)
Definition env_or (process_env : gmap string string) (k fallback : string) : string :=
  match process_env !! k with
  | Some v => if String.eqb v "" then fallback else v
  | None => fallback
  end.

Definition Error (msg : string) : JsVal := JError "Error" msg.

Section Service.
Context {runtime : Runtime} {processor : Processor}.
Variable process_env : gmap string string.

Definition constructor : M Instance :=
  _ ← set_accessToken JNull;
  _ ← set_tokenExpiry JNull;
  mret {|
    apiUrl := env_or process_env "PAYMENT_PROVIDER_API_URL" "https://api.wlpis.io";
    authUrl := env_or process_env "PAYMENT_PROVIDER_AUTH_URL" "https://auth.wlpis.io";
    accessKey := env_get process_env "PAYMENT_PROVIDER_ACCESS_KEY";
    secretKey := env_get process_env "PAYMENT_PROVIDER_SECRET_KEY";
  |}.

Variable this : Instance.

(** [catch (error) { throw new Error(`<what>: ${error.message}`) }] *)
Definition rethrow {A} (what : string) (error : JsVal) : M A :=
  message ← lift (get_prop error "message");
  throw (Error (what ++ ": " ++ ToString message)).

Definition authenticate : M unit :=
  try_catch
    (response ← axios "POST" (authUrl this ++ "/api/token/project")
                  {[ "Content-Type" := "application/json" ]}
                  (JObj {[ "projectAccessKey" := accessKey this;
                           "projectSecretKey" := secretKey this ]});
     data ← lift (get_prop response "data");
     accessToken ← lift (get_prop data "accessToken");
     expiresIn ← lift (get_prop data "expiresIn");
     _ ← set_accessToken accessToken;
     t ← Date_now;
     set_tokenExpiry (js_add t (js_mul expiresIn (JNum 1000))))
    (rethrow "Authentication failed").

(** [!this.accessToken || Date.now() >= this.tokenExpiry] *)
Definition must_authenticate : M bool :=
  token ← get_accessToken;
  if negb (truthy token) then mret true
  else
    t ← Date_now;
    expiry ← get_tokenExpiry;
    mret (js_ge t expiry).

Definition ensureAuthenticated : M unit :=
  stale ← must_authenticate;
  if stale : bool then authenticate else mret tt.

Definition bearer_json_headers (token : JsVal) : gmap string string :=
  {[ "Authorization" := "Bearer " ++ ToString token;
     "Content-Type" := "application/json" ]}.

Definition createPayment (cart : JsVal) : M JsVal :=
  _ ← ensureAuthenticated;
  total ← lift (get_prop cart "total");
  let amount := js_div total (JNum 100) in
  region ← lift (get_prop cart "region");
  code ← lift (get_prop region "currency_code");
  currency ← lift (toUpperCase code);
  try_catch
    (cart_id ← lift (get_prop cart "id");
     token ← get_accessToken;
     response ← axios "POST" (apiUrl this ++ "/api/payment/onlineBankTransfer")
                  (bearer_json_headers token)
                  (JObj {[ "amount" := amount;
                           "currency" := currency;
                           "paymentUsage" := JStr ("Order " ++ ToString cart_id);
                           "notificationUrl" :=
                             JStr (ToString (env_get process_env "BACKEND_URL")
                                   ++ "/payment/webhook");
                           "onlineBankTransferOptions" :=
                             JObj {[ "requireInstantPayment" := JBool true ]} ]});
     data ← lift (get_prop response "data");
     transactionId ← lift (get_prop data "transactionId");
     status ← lift (get_prop data "status");
     mret (JObj {[ "provider_id" := JStr identifier;
                   "data" := JObj {[ "transactionId" := transactionId;
                                     "status" := status ]};
                   "amount" := total;
                   "currency_code" := code ]}))
    (rethrow "Payment creation failed").

Definition retrievePayment (paymentData : JsVal) : M JsVal := mret paymentData.

Definition authorizePayment (paymentSession context : JsVal) : M JsVal :=
  data ← lift (get_prop paymentSession "data");
  mret (JObj {[ "status" := JStr "authorized"; "data" := data ]}).

Definition capturePayment (payment : JsVal) : M JsVal :=
  data ← lift (get_prop payment "data");
  mret (JObj {[ "status" := JStr "captured"; "data" := data ]}).

Definition refundPayment (payment amount : JsVal) : M JsVal :=
  _ ← ensureAuthenticated;
  try_catch
    (payment_data ← lift (get_prop payment "data");
     transactionId ← lift (get_prop payment_data "transactionId");
     token ← get_accessToken;
     response ← axios "POST" (apiUrl this ++ "/api/payment/refund")
                  (bearer_json_headers token)
                  (JObj {[ "paymentTransactionId" := transactionId;
                           "amount" := js_div amount (JNum 100) ]});
     data ← lift (get_prop response "data");
     status ← lift (get_prop data "status");
     lowered ← lift (toLowerCase status);
     mret (JObj {[ "status" := lowered; "data" := payment_data ]}))
    (rethrow "Refund failed").

Definition cancelPayment (paymentData : JsVal) : M JsVal :=
  mret (JObj (<["status" := JStr "cancelled"]> (own_props paymentData))).

(** [Object.assign({}, paymentSessionData, update)] *)
Definition updatePaymentData (paymentSessionData update : JsVal) : M JsVal :=
  mret (JObj (spread (own_props paymentSessionData) (own_props update))).

Definition getStatus (paymentData : JsVal) : M JsVal :=
  _ ← ensureAuthenticated;
  try_catch
    (payment_data ← lift (get_prop paymentData "data");
     transactionId ← lift (get_prop payment_data "transactionId");
     token ← get_accessToken;
     response ← axios_get (apiUrl this ++ "/api/payment/query")
                  {[ "Authorization" := "Bearer " ++ ToString token ]}
                  (JObj {[ "paymentTransactionId" := transactionId ]});
     data ← lift (get_prop response "data");
     queryResult ← lift (get_prop data "queryResult");
     transaction ← lift (array_find
                           (λ t, id ← get_prop t "paymentTransactionId";
                                 Return (strict_eq_fresh id transactionId))
                           queryResult);
     if truthy transaction then
       status ← lift (get_prop transaction "status");
       lift (toLowerCase status)
     else
       throw (Error "Transaction not found"))
    (rethrow "Failed to get payment status").

Definition updatePayment (paymentSessionData data : JsVal) : M JsVal :=
  session_data ← lift (get_prop paymentSessionData "data");
  mret (JObj (<["data" := JObj (spread (own_props session_data) (own_props data))]>
                (own_props paymentSessionData))).
End Service.

End CustomPaymentProvider.

(** ** [FoxPayProviderService] *)

Module FoxPay.

Definition identifier : string := "foxpay".

Record Options := mkOptions {
  apiKey : string;
  foxpayBaseUrl : option string;
}.

(** [CreatePaymentProviderSession], at its declared type. *)
Record CreatePaymentProviderSession := mkCreate {
  amount : JsVal;
  currency_code : string;
  context : JsVal;
}.

(** [UpdatePaymentProviderSession], at its declared type. *)
Record UpdatePaymentProviderSession := mkUpdate {
  update_amount : JsVal;
  update_currency_code : string;
  update_context : JsVal;
  update_data : gmap string JsVal;
}.

(** The argument of [getWebhookActionAndData]. *)
Record WebhookPayload := mkWebhookPayload {
  data : gmap string JsVal;
  rawData : string;
  headers : gmap string JsVal;
}.

(** [new Error(msg)] *)
Definition Error (msg : string) : JsVal := JError "Error" msg.

(** A [PaymentProviderError]: [{ error, code, detail }]. *)
Definition PaymentProviderError (error : JsVal) (code : string) (detail : JsVal) : JsVal :=
  JObj {[ "error" := error; "code" := JStr code; "detail" := detail ]}.

(** [catch (e) { return { error: e, code: "unknown", detail: e } }] *)
Definition unknown_error (e : JsVal) : M JsVal :=
  mret (PaymentProviderError e "unknown" e).

Section Service.
Context {runtime : Runtime} {processor : Processor}.
Variable options_ : Options.

(** [options.foxpayBaseUrl || "https://api.foxpay.com"] *)
Definition baseUrl : string :=
  match foxpayBaseUrl options_ with
  | Some u => if String.eqb u "" then "https://api.foxpay.com" else u
  | None => "https://api.foxpay.com"
  end.

Definition bearer : string := "Bearer " ++ apiKey options_.

Definition post_headers : gmap string string :=
  {[ "Content-Type" := "application/json"; "Authorization" := bearer ]}.

Definition get_headers : gmap string string :=
  {[ "Authorization" := bearer ]}.

Definition initiatePayment (ctx : CreatePaymentProviderSession) : M JsVal :=
  let paymentContext := context ctx in
  let verwendungszweck :=
    "Order #" ++
    ToString (nullish_or (get_prop_opt paymentContext "cart_id") (JStr "unknown")) in
  let payload :=
    JObj {[ "amount" := amount ctx;
            "currency" := JStr (map_string upper_ascii (currency_code ctx));
            "verwendungszweck" := JStr verwendungszweck ]} in
  try_catch
    (res ← fetch (baseUrl ++ "/initiate") "POST" post_headers (JSON_stringify payload);
     if negb (res_ok res) then
       errorDetail ← text res;
       mret (PaymentProviderError
               (Error ("FoxPay initiation failed: " ++ errorDetail))
               "init_failed" (JStr errorDetail))
     else
       data ← json res;
       id ← lift (get_prop data "id");
       qr_code_url ← lift (get_prop data "qr_code_url");
       mret (JObj (<["data" := JObj {[ "id" := id;
                                       "qr_code_url" := qr_code_url;
                                       "verwendungszweck" := JStr verwendungszweck ]}]>
                     (own_props data))))
    unknown_error.

Definition authorizePayment (paymentSessionData : gmap string JsVal) (context : JsVal)
  : M JsVal :=
  let externalId := field paymentSessionData "id" in
  try_catch
    (statusRes ← fetch (baseUrl ++ "/status/" ++ ToString externalId) "GET"
                   get_headers JUndefined;
     if negb (res_ok statusRes) then
       detail ← text statusRes;
       mret (PaymentProviderError
               (Error ("FoxPay status check failed: " ++ detail))
               "status_failed" (JStr detail))
     else
       statusData ← json statusRes;
       status ← lift (get_prop statusData "status");
       if strict_eq_str status "authorized" then
         mret (JObj {[ "status" := JStr "authorized";
                       "data" := JObj paymentSessionData ]})
       else
         mret (PaymentProviderError
                 (Error "Payment not yet authorized")
                 "not_authorized" (JStr "Still pending user action")))
    unknown_error.

Definition capturePayment (paymentData : gmap string JsVal) : M JsVal :=
  let externalId := field paymentData "id" in
  try_catch
    (res ← fetch (baseUrl ++ "/capture") "POST" post_headers
             (JSON_stringify (JObj {[ "id" := externalId ]}));
     if negb (res_ok res) then
       detail ← text res;
       mret (PaymentProviderError
               (Error ("FoxPay capture failed: " ++ detail))
               "capture_failed" (JStr detail))
     else
       newData ← json res;
       mret (JObj (spread paymentData (own_props newData))))
    unknown_error.

Definition cancelPayment (paymentData : gmap string JsVal) : M JsVal :=
  let externalId := field paymentData "id" in
  try_catch
    (res ← fetch (baseUrl ++ "/cancel") "POST" post_headers
             (JSON_stringify (JObj {[ "id" := externalId ]}));
     if negb (res_ok res) then
       detail ← text res;
       mret (PaymentProviderError
               (Error ("FoxPay cancel failed: " ++ detail))
               "cancel_failed" (JStr detail))
     else
       data ← json res;
       mret (JObj (spread paymentData (own_props data))))
    unknown_error.

Definition deletePayment (paymentSessionData : gmap string JsVal) : M JsVal :=
  let externalId := field paymentSessionData "id" in
  cancelPayment {[ "id" := externalId ]}.

Definition getPaymentStatus (paymentSessionData : gmap string JsVal) : M JsVal :=
  let externalId := field paymentSessionData "id" in
  try_catch
    (res ← fetch (baseUrl ++ "/status/" ++ ToString externalId) "GET"
             get_headers JUndefined;
     if negb (res_ok res) then mret (JStr "error")
     else
       data ← json res;
       status ← lift (get_prop data "status");
       if strict_eq_str status "authorized" then mret (JStr "authorized")
       else if strict_eq_str status "captured" then mret (JStr "captured")
       else if strict_eq_str status "canceled" then mret (JStr "canceled")
       else mret (JStr "pending"))
    (λ _, mret (JStr "error")).

Definition refundPayment (paymentData : gmap string JsVal) (refundAmount : JsVal)
  : M JsVal :=
  let externalId := field paymentData "id" in
  try_catch
    (res ← fetch (baseUrl ++ "/refund") "POST" post_headers
             (JSON_stringify (JObj {[ "id" := externalId;
                                      "amount" := refundAmount ]}));
     if negb (res_ok res) then
       detail ← text res;
       mret (PaymentProviderError
               (Error ("FoxPay refund failed: " ++ detail))
               "refund_failed" (JStr detail))
     else
       newData ← json res;
       mret (JObj (spread paymentData (own_props newData))))
    unknown_error.

Definition retrievePayment (paymentSessionData : gmap string JsVal) : M JsVal :=
  let externalId := field paymentSessionData "id" in
  try_catch
    (res ← fetch (baseUrl ++ "/retrieve/" ++ ToString externalId) "GET"
             get_headers JUndefined;
     if negb (res_ok res) then
       detail ← text res;
       mret (PaymentProviderError
               (Error ("FoxPay retrieve failed: " ++ detail))
               "retrieve_failed" (JStr detail))
     else
       json res)
    unknown_error.

Definition updatePayment (ctx : UpdatePaymentProviderSession) : M JsVal :=
  let paymentContext := update_context ctx in
  let externalId := field (update_data ctx) "id" in
  let verwendungszweck :=
    "Order Update #" ++
    ToString (nullish_or (get_prop_opt paymentContext "cart_id") (JStr "unknown")) in
  try_catch
    (res ← fetch (baseUrl ++ "/update") "POST" post_headers
             (JSON_stringify
                (JObj {[ "id" := externalId;
                         "amount" := update_amount ctx;
                         "currency" :=
                           JStr (map_string upper_ascii (update_currency_code ctx));
                         "verwendungszweck" := JStr verwendungszweck ]}));
     if negb (res_ok res) then
       detail ← text res;
       mret (PaymentProviderError
               (Error ("FoxPay update failed: " ++ detail))
               "update_failed" (JStr detail))
     else
       response ← json res;
       id ← lift (get_prop response "id");
       mret (JObj (<["data" := JObj {[ "id" := id;
                                       "verwendungszweck" := JStr verwendungszweck ]}]>
                     (own_props response))))
    unknown_error.

(** [{ action, data: { session_id, amount } }] *)
Definition action_with_data (action : string) (data : gmap string JsVal) : JsVal :=
  JObj {[ "action" := JStr action;
          "data" := JObj {[ "session_id" := field data "session_id";
                            "amount" := field data "amount" ]} ]}.

Definition getWebhookActionAndData (payload : WebhookPayload) : M JsVal :=
  let data := data payload in
  try_catch
    (let event_type := field data "event_type" in
     if strict_eq_str event_type "payment_authorized" then
       mret (action_with_data "authorized" data)
     else if strict_eq_str event_type "payment_captured" then
       mret (action_with_data "captured" data)
     else
       mret (JObj {[ "action" := JStr "not_supported" ]}))
    (λ e, mret (action_with_data "failed" data)).
End Service.

End FoxPay.

(** ** The storefront configuration: [next.config.js]

    The module first calls [checkEnvVariables()], which is not among the
    sources; [nextConfig] is what it exports once that call has returned. *)

Module NextConfig.

Record RemotePattern := mkRemotePattern {
  protocol : string;
  hostname : string;
}.

Record Config := mkConfig {
  reactStrictMode : bool;
  remotePatterns : list RemotePattern;
  port : JsVal;
}.

(** The string without its first [n] characters. *)
Fixpoint drop_chars (n : nat) (s : string) : string :=
  match n, s with
  | O, _ => s
  | S m, EmptyString => EmptyString
  | S m, String _ r => drop_chars m r
  end.

(** [s.replace(/^https?:\/\//, '')]: one leading [http://] or [https://],
    in lower case, is removed. *)
Definition strip_protocol (s : string) : string :=
  if String.prefix "https://" s then drop_chars 8 s
  else if String.prefix "http://" s then drop_chars 7 s
  else s.

(** [process.env.K], when it is set to something other than the empty
    string: the test [process.env.K ? ... : ...] of the source. *)
Definition env_truthy (process_env : gmap string string) (k : string) : option string :=
  match process_env !! k with
  | Some v => if String.eqb v "" then None else Some v
  | None => None
  end.

Definition nextConfig (process_env : gmap string string) : Config := {|
  reactStrictMode := true;
  remotePatterns :=
    [ mkRemotePattern "http" "localhost";
      mkRemotePattern "https"
        match env_truthy process_env "NEXT_PUBLIC_MEDUSA_BACKEND_URL" with
        | Some url => strip_protocol url
        | None => "example.com"
        end;
      mkRemotePattern "https" "medusa-public-images.s3.eu-west-1.amazonaws.com";
      mkRemotePattern "https" "medusa-server-testing.s3.amazonaws.com";
      mkRemotePattern "https" "medusa-server-testing.s3.us-east-1.amazonaws.com" ]
    ++ match env_truthy process_env "NEXT_PUBLIC_MINIO_ENDPOINT" with
       | Some endpoint => [ mkRemotePattern "https" (strip_protocol endpoint) ]
       | None => []
       end;
  port :=
    match env_truthy process_env "PORT" with
    | Some p => JStr p
    | None => JNum 3000
    end;
|}.

End NextConfig.

(** ** Sample runtime and processors

    The theorems below hold for every [Runtime] and every [Processor].  To
    run the adapters on concrete inputs, a small runtime and processors that
    answer from a script are enough. *)

(** Integers in decimal, other rationals as a fraction. *)
Definition sample_number (q : Q) : string :=
  if (Z.pos (Qden q) =? 1)%Z then pretty (Qnum q)
  else pretty (Qnum q) ++ "/" ++ pretty (Z.pos (Qden q)).

(** Decimal integers; anything else is [NaN]. *)
Definition sample_parse (s : string) : option Q :=
  match NilZero.int_of_string s with
  | Some i => Some (inject_Z (Z.of_int i))
  | None => None
  end.

(** The double quote character. *)
Definition quote : string := String (ascii_of_nat 34) EmptyString.

(** [JSON.stringify] leaves out the properties whose value is [undefined]. *)
Definition defined (v : JsVal) : bool :=
  match v with JUndefined => false | _ => true end.

(** A compact JSON rendering, to the given depth; properties are listed in
    the order of the map, not in insertion order, and strings are not
    escaped. *)
Fixpoint render (depth : nat) (v : JsVal) : string :=
  match depth with
  | O => "null"
  | S n =>
      match v with
      | JNull | JUndefined | JNaN => "null"
      | JBool b => if b then "true" else "false"
      | JNum q => sample_number q
      | JStr s => quote ++ s ++ quote
      | JArr l => "[" ++ String.concat "," (render n <$> l) ++ "]"
      | JObj o =>
          "{" ++
          String.concat ","
            ((λ kv, quote ++ kv.1 ++ quote ++ ":" ++ render n kv.2)
               <$> List.filter (λ kv, defined kv.2) (map_to_list o)) ++
          "}"
      | JError _ _ => "{}"
      end
  end.

Definition sample_stringify (v : JsVal) : string := render 8 v.

(** The HMAC of the sample runtime only records what it was given. *)
Definition sample_runtime : Runtime := {|
  hmac_sha384_hex key msg := "hmac[" ++ key ++ "](" ++ msg ++ ")";
  stringify := sample_stringify;
  Number_toString := sample_number;
  StringToNumber := sample_parse;
|}.

(** A processor that answers the n-th request with the n-th reply of a
    script, at once, and is unreachable afterwards. *)
Definition scripted (replies : list Reply) : Processor := {|
  server trace _ :=
    default (Unreachable (JError "Error" "connect ECONNREFUSED")) (replies !! length trace);
  latency _ _ := 0;
|}.

(** A JSON answer with the given status line. *)
Definition json_answer (status : Z) (v : JsVal) : Reply :=
  Answer (mkResponse status (Return (sample_stringify v)) (Return v)).

(** A plain-text answer: [json()] rejects on it. *)
Definition text_answer (status : Z) (t : string) : Reply :=
  Answer (mkResponse status (Return t)
            (Throw (JError "SyntaxError" "Unexpected token in JSON at position 0"))).

(** A world at time [t] with nothing sent and no credential. *)
Definition fresh_world (t : Z) : Sys := mkSys t [] JNull JNull.

(** An adapter instance with both URLs at their defaults. *)
Definition sample_instance : CustomPaymentProvider.Instance :=
  CustomPaymentProvider.mkInstance "https://api.wlpis.io" "https://auth.wlpis.io"
    (JStr "access") (JStr "secret").

(** A captured payment as the host stores it. *)
Definition sample_payment : JsVal :=
  JObj {[ "status" := JStr "captured";
          "data" := JObj {[ "transactionId" := JStr "tx_1" ]} ]}.

(** A cart of 1000 cents in euros. *)
Definition sample_cart : gmap string JsVal :=
  {[ "id" := JStr "cart_1";
     "total" := JNum 1000;
     "region" := JObj {[ "currency_code" := JStr "eur" ]} ]}.

(** A world at time 0 with a token cached that expires at one minute. *)
Definition authenticated_world : Sys := mkSys 0 [] (JStr "token") (JNum 60000).

(** ** Vocabulary of the specification *)

(** The action the spec names for an event type. *)
Definition action_for (event_type : JsVal) : string :=
  if strict_eq_str event_type "payment_authorized" then "authorized"
  else if strict_eq_str event_type "payment_captured" then "captured"
  else "not_supported".

(** The world after request [r] went out from world [s]. *)
Definition sent {processor : Processor} (s : Sys) (r : Request) : Sys :=
  mkSys (now s + latency (wire s) r) (wire s ++ [r]) (accessToken s) (tokenExpiry s).

(** The contract of a Payment Gateway Client operation: in every world the
    operation sends one request and returns a value; when the request cannot
    be completed, or the body of a 2xx response does not decode, the value is
    the error record with code [unknown] around the original error; when the
    status is not 2xx, it is the error record with the operation's own code
    and the response body text as detail. *)
Definition gateway_contract {runtime : Runtime} {processor : Processor}
    (what code : string) (op : M JsVal) : Prop :=
  ∀ s : Sys, ∃ (r : Request) (v : JsVal),
    op s = (Return v, sent s r) ∧
    match server (wire s) r with
    | Unreachable e => v = FoxPay.PaymentProviderError e "unknown" e
    | Answer res =>
        if res_ok res then
          match res_json res with
          | Return _ => True
          | Throw e => v = FoxPay.PaymentProviderError e "unknown" e
          end
        else
          match res_text res with
          | Return detail =>
              v = FoxPay.PaymentProviderError
                    (FoxPay.Error (what ++ detail)) code (JStr detail)
          | Throw e => v = FoxPay.PaymentProviderError e "unknown" e
          end
    end.

(** A credential is cached when the stored token is one [!token] does not
    reject. *)
Definition credential_cached (s : Sys) : Prop := truthy (accessToken s) = true.

(** The clock has reached the stored expiry: [Date.now() >= tokenExpiry]. *)
Definition at_or_past_expiry {runtime : Runtime} (s : Sys) : Prop :=
  js_ge (JNum (inject_Z (now s))) (tokenExpiry s) = true.

(** A duration given in seconds, on the millisecond scale of [Date.now()]. *)
Definition seconds (duration : Q) : Q := (duration * 1000)%Q.

(** The request [authenticate] sends. *)
Definition token_request (this : CustomPaymentProvider.Instance) : Request :=
  mkRequest "POST" (CustomPaymentProvider.authUrl this ++ "/api/token/project")
    {[ "Content-Type" := "application/json" ]}
    (JObj {[ "projectAccessKey" := CustomPaymentProvider.accessKey this;
             "projectSecretKey" := CustomPaymentProvider.secretKey this ]}).

(** The request [refundPayment] sends for a transaction, under a token. *)
Definition refund_request {runtime : Runtime} (this : CustomPaymentProvider.Instance)
    (token transactionId amount : JsVal) : Request :=
  mkRequest "POST" (CustomPaymentProvider.apiUrl this ++ "/api/payment/refund")
    (CustomPaymentProvider.bearer_json_headers token)
    (JObj {[ "paymentTransactionId" := transactionId;
             "amount" := js_div amount (JNum 100) ]}).

(** The requests that went out between world [s] and the later world [s']. *)
Definition new_requests (s s' : Sys) : list Request :=
  drop (length (wire s)) (wire s').

(** The status query both [authorizePayment] and [getPaymentStatus] of the
    FoxPay adapter send for an external id. *)
Definition status_request {runtime : Runtime} (options_ : FoxPay.Options) (externalId : JsVal)
  : Request :=
  mkRequest "GET" (FoxPay.baseUrl options_ ++ "/status/" ++ ToString externalId)
    (FoxPay.get_headers options_) JUndefined.


(** The canonical status the spec assigns to a processor status string. *)
Definition canonical_status (processor_status : string) : string :=
  if String.eqb processor_status "authorized" then "authorized"
  else if String.eqb processor_status "captured" then "captured"
  else if String.eqb processor_status "canceled" then "canceled"
  else "pending".

(** The memo FoxPay's [initiatePayment] builds from the cart context. *)
Definition initiate_memo {runtime : Runtime} (ctx : FoxPay.CreatePaymentProviderSession) : string :=
  "Order #" ++
  ToString (nullish_or (get_prop_opt (FoxPay.context ctx) "cart_id") (JStr "unknown")).



(** The request FoxPay's [cancelPayment] sends for an external id. *)
Definition cancel_request {runtime : Runtime} (options_ : FoxPay.Options) (externalId : JsVal)
  : Request :=
  mkRequest "POST" (FoxPay.baseUrl options_ ++ "/cancel") (FoxPay.post_headers options_)
    (JStr (stringify (JObj {[ "id" := externalId ]}))).

(** Two calls of an operation in a row, with both results. *)
Definition twice {A} (op : M A) : M (A * A) :=
  first ← op;
  second ← op;
  mret (first, second).

(** An operation of the FoxPay client sends, in every world, one request,
    to an address under the base URL and with the API key as bearer
    token. *)
Definition sends_authenticated {runtime : Runtime} {processor : Processor}
    (options_ : FoxPay.Options) (op : M JsVal) : Prop :=
  ∀ s : Sys, ∃ r : Request,
    snd (op s) = sent s r
    ∧ req_headers r !! "Authorization" = Some ("Bearer " ++ FoxPay.apiKey options_)
    ∧ String.prefix (FoxPay.baseUrl options_) (req_url r) = true.

(** The five statuses [getPaymentStatus] can report. *)
Definition session_statuses : list string :=
  ["authorized"; "captured"; "canceled"; "pending"; "error"].

(** The requests FoxPay's [capturePayment], [refundPayment] and
    [updatePayment] send. *)
Definition capture_request {runtime : Runtime} (options_ : FoxPay.Options)
    (externalId : JsVal) : Request :=
  mkRequest "POST" (FoxPay.baseUrl options_ ++ "/capture") (FoxPay.post_headers options_)
    (JStr (stringify (JObj {[ "id" := externalId ]}))).

Definition foxpay_refund_request {runtime : Runtime} (options_ : FoxPay.Options)
    (externalId refundAmount : JsVal) : Request :=
  mkRequest "POST" (FoxPay.baseUrl options_ ++ "/refund") (FoxPay.post_headers options_)
    (JStr (stringify (JObj {[ "id" := externalId; "amount" := refundAmount ]}))).

Definition update_memo {runtime : Runtime} (ctx : FoxPay.UpdatePaymentProviderSession)
  : string :=
  "Order Update #" ++
  ToString (nullish_or (get_prop_opt (FoxPay.update_context ctx) "cart_id")
              (JStr "unknown")).

Definition update_request {runtime : Runtime} (options_ : FoxPay.Options)
    (ctx : FoxPay.UpdatePaymentProviderSession) : Request :=
  mkRequest "POST" (FoxPay.baseUrl options_ ++ "/update") (FoxPay.post_headers options_)
    (JStr (stringify
             (JObj {[ "id" := field (FoxPay.update_data ctx) "id";
                      "amount" := FoxPay.update_amount ctx;
                      "currency" :=
                        JStr (map_string upper_ascii (FoxPay.update_currency_code ctx));
                      "verwendungszweck" := JStr (update_memo ctx) ]}))).




(** What a reply to the status query reports: the [status] of a decoded 2xx
    body, when there is one to read. *)
Definition reported_status (reply : Reply) : option JsVal :=
  match reply with
  | Unreachable _ => None
  | Answer res =>
      if res_ok res then
        match res_json res with
        | Return d =>
            match get_prop d "status" with
            | Return status => Some status
            | Throw _ => None
            end
        | Throw _ => None
        end
      else None
  end.

(** ** Proof automation *)

(** Unfold the monad down to the processor's reply. *)
Ltac run :=
  cbv beta iota zeta delta
    [try_catch mbind M_bind mret M_ret fetch axios send text json lift throw
     get_accessToken get_tokenExpiry set_accessToken set_tokenExpiry Date_now
     FoxPay.unknown_error].

(** An operation of the FoxPay client, by cases on what came back. *)
Ltac contract :=
  unfold gateway_contract; intros ?; run;
  match goal with
  | |- context [server ?tr ?r] =>
      exists r; destruct (server tr r) as [?|?]; cbn beta iota
  end;
  [eexists; split; reflexivity|];
  match goal with
  | res : Response |- _ =>
      destruct (res_ok res); cbn beta iota;
      [destruct (res_json res) as [?|?]; cbn beta iota
      |destruct (res_text res) as [?|?]; cbn beta iota]
  end;
  try (eexists; split; [reflexivity|first [reflexivity|exact I]]).


(** * Properties *)

(** ** The signature check *)

Section SignatureCheck.
Context {runtime : Runtime}.
Import WebhookRoute.

Lemma strict_neq_spec (hmac : string) (signature : option string) :
  negb (strict_neq hmac signature) = bool_decide (signature = Some hmac).
Proof.
  unfold strict_neq. destruct signature as [s|].
  - rewrite negb_involutive. case_bool_decide as Heq.
    + injection Heq as ->. apply String.eqb_refl.
    + apply String.eqb_neq. congruence.
  - by case_bool_decide.
Qed.

(** Without a secret the check never gets as far as comparing. *)
Lemma verify_without_secret (reqBody : JsVal) (signature : option string) :
  returned (verify reqBody signature None) = false.
Proof. reflexivity. Qed.

(** With a secret, only a missing body stops the comparison. *)
Lemma verify_with_secret (reqBody : JsVal) (signature : option string) (secret : string) :
  verify reqBody signature (Some secret)
  = match reqBody with
    | JUndefined => Throw (TypeError "The 'data' argument must be of type string")
    | _ => Return (negb (strict_neq (hmac_sha384_hex secret (stringify reqBody)) signature))
    end.
Proof. by destruct reqBody. Qed.

(** C1 (amended): with a shared secret configured and a parsed request
    body, the signature check returns [true] exactly when the provided
    signature is the hex HMAC-SHA384, under that secret, of the
    re-serialised body, and [false] on any mismatch, an absent signature
    header included; it does not throw. *)
Theorem verify_accepts_exactly_the_hmac
    (reqBody : JsVal) (signature : option string) (secret : string) :
  reqBody ≠ JUndefined →
  verify reqBody signature (Some secret)
  = Return (bool_decide (signature = Some (hmac_sha384_hex secret (stringify reqBody)))).
Proof.
  intros Hbody. rewrite verify_with_secret.
  destruct reqBody; try done; by rewrite strict_neq_spec.
Qed.
End SignatureCheck.

(** C1 as stated fails: with no secret in the environment the check throws
    instead of returning [false]. *)
Lemma verify_absent_secret_throws :
  WebhookRoute.verify (runtime:=sample_runtime) (JObj ∅) (Some "00") None
  = Throw (TypeError "The 'key' argument must be of type string. Received undefined").
Proof. reflexivity. Qed.

(** C1 at work: the empty object, signed under the key [k], is accepted. *)
Lemma verify_accepts_exactly_the_hmac_witness :
  JObj ∅ ≠ JUndefined ∧
  WebhookRoute.verify (runtime:=sample_runtime) (JObj ∅) (Some "hmac[k]({})") (Some "k")
  = Return true.
Proof.
  split; [done|].
  exact (verify_accepts_exactly_the_hmac (runtime:=sample_runtime)
           (JObj ∅) (Some "hmac[k]({})") "k" ltac:(done)).
Defined.


(** ** Webhook handling *)

Section WebhookHandling.
Context {runtime : Runtime}.
Import WebhookRoute.

(** The route touches neither the wire nor the credential, whatever the
    request. *)
Lemma route_leaves_world (process_env : gmap string string) (req : ExpressRequest) (s : Sys) :
  snd (post_payment_webhook process_env req s) = s.
Proof.
  unfold post_payment_webhook, mbind, M_bind, lift.
  destruct (verify _ _ _) as [[|]|e]; simpl; [|done|done].
  destruct (destructure_body _); done.
Qed.

(** FoxPay's handler answers every payload by its event type. *)
Lemma foxpay_webhook_translates (payload : FoxPay.WebhookPayload) (s : Sys) :
  ∃ v, FoxPay.getWebhookActionAndData payload s = (Return v, s)
       ∧ prop v "action" = JStr (action_for (field (FoxPay.data payload) "event_type")).
Proof.
  unfold FoxPay.getWebhookActionAndData, action_for, try_catch.
  destruct (strict_eq_str _ "payment_authorized"); [by eexists|].
  destruct (strict_eq_str _ "payment_captured"); by eexists.
Qed.

(** C2 (amended): with a shared secret configured, the route answers every
    request that has a parsed body and whose signature header is not the
    hex HMAC-SHA384 of the re-serialised body with 401 [Invalid signature];
    a request without a parsed body ([req.body] undefined) gets no answer
    at all, whatever its header: the handler throws a [TypeError] before it
    compares, so neither the 401 nor the 200 is sent; the route changes
    nothing in the world for any request; FoxPay's
    [getWebhookActionAndData] checks no signature: it answers every
    payload with the action of its event type, also without changing the
    world. *)
Theorem unverified_webhook_is_rejected_by_route
    (process_env : gmap string string) (req : ExpressRequest) (secret : string) (s : Sys) :
  process_env !! "PAYMENT_PROVIDER_WEBHOOK_SECRET" = Some secret →
  (body req ≠ JUndefined →
   headers req !! "x-hmac-sha384" ≠ Some (hmac_sha384_hex secret (stringify (body req))) →
   post_payment_webhook process_env req s = (Return (Sent 401 "Invalid signature"), s))
  ∧ (body req = JUndefined →
     ∃ msg, post_payment_webhook process_env req s = (Throw (TypeError msg), s))
  ∧ (∀ req' s', snd (post_payment_webhook process_env req' s') = s')
  ∧ (∀ payload s', ∃ v,
       FoxPay.getWebhookActionAndData payload s' = (Return v, s')
       ∧ prop v "action" = JStr (action_for (field (FoxPay.data payload) "event_type"))).
Proof.
  intros Hsecret. split; [|split; [|split]].
  - intros Hbody Hsig.
    unfold post_payment_webhook, mbind, M_bind, lift.
    rewrite Hsecret, verify_with_secret.
    destruct (body req); try done; rewrite strict_neq_spec;
      by rewrite bool_decide_eq_false_2.
  - intros Hbody.
    unfold post_payment_webhook, mbind, M_bind, lift.
    rewrite Hsecret, verify_with_secret, Hbody. by eexists.
  - intros. apply route_leaves_world.
  - intros. apply foxpay_webhook_translates.
Qed.

(** C3: the result of [getWebhookActionAndData] is a function of the
    fields [event_type], [session_id] and [amount] of [payload.data]:
    payloads that agree on them get the same result, whatever their raw
    body, their headers and the state of the world. *)
Theorem webhook_action_reads_three_fields (p1 p2 : FoxPay.WebhookPayload) (s1 s2 : Sys) :
  field (FoxPay.data p1) "event_type" = field (FoxPay.data p2) "event_type" →
  field (FoxPay.data p1) "session_id" = field (FoxPay.data p2) "session_id" →
  field (FoxPay.data p1) "amount" = field (FoxPay.data p2) "amount" →
  fst (FoxPay.getWebhookActionAndData p1 s1) = fst (FoxPay.getWebhookActionAndData p2 s2).
Proof.
  intros Hevent Hsession Hamount.
  unfold FoxPay.getWebhookActionAndData, FoxPay.action_with_data, try_catch.
  rewrite Hevent, Hsession, Hamount.
  destruct (strict_eq_str _ "payment_authorized"); [reflexivity|].
  destruct (strict_eq_str _ "payment_captured"); reflexivity.
Qed.
End WebhookHandling.

(** C2 as stated fails: a payload that carries no signature at all, so that
    no check can pass, is still translated into a [captured] action. *)
Lemma unsigned_payload_is_translated :
  let payload :=
    FoxPay.mkWebhookPayload
      {[ "event_type" := JStr "payment_captured";
         "session_id" := JStr "fp_1";
         "amount" := JNum 1000 ]}
      "{}" ∅ in
  FoxPay.headers payload !! "x-hmac-sha384" = None
  ∧ WebhookRoute.verify (runtime:=sample_runtime) (JObj (FoxPay.data payload)) None (Some "k")
    = Return false
  ∧ FoxPay.getWebhookActionAndData payload (fresh_world 0)
    = (Return (JObj {[ "action" := JStr "captured";
                       "data" := JObj {[ "session_id" := JStr "fp_1";
                                         "amount" := JNum 1000 ]} ]}),
       fresh_world 0).
Proof. repeat split; vm_compute; reflexivity. Qed.

(** C2 at work: a forged signature on the empty object is answered 401. *)
Lemma unverified_webhook_is_rejected_by_route_witness :
  WebhookRoute.post_payment_webhook (runtime:=sample_runtime)
    {[ "PAYMENT_PROVIDER_WEBHOOK_SECRET" := "k" ]}
    (WebhookRoute.mkExpressRequest (JObj ∅) {[ "x-hmac-sha384" := "forged" ]})
    (fresh_world 0)
  = (Return (WebhookRoute.Sent 401 "Invalid signature"), fresh_world 0).
Proof.
  destruct (unverified_webhook_is_rejected_by_route (runtime:=sample_runtime)
              {[ "PAYMENT_PROVIDER_WEBHOOK_SECRET" := "k" ]}
              (WebhookRoute.mkExpressRequest (JObj ∅) {[ "x-hmac-sha384" := "forged" ]})
              "k" (fresh_world 0)) as (Hreject & _).
  - vm_compute; reflexivity.
  - apply Hreject.
    + discriminate.
    + vm_compute; congruence.
Defined.

(** C3 at work: a signed payload and an unsigned one with the same event get
    the same answer. *)
Lemma webhook_action_reads_three_fields_witness :
  fst (FoxPay.getWebhookActionAndData
         (FoxPay.mkWebhookPayload
            {[ "event_type" := JStr "payment_captured"; "session_id" := JStr "fp_1" ]}
            "{'signed':true}" {[ "x-hmac-sha384" := JStr "9f2c" ]})
         (fresh_world 0))
  = fst (FoxPay.getWebhookActionAndData
           (FoxPay.mkWebhookPayload
              {[ "event_type" := JStr "payment_captured"; "session_id" := JStr "fp_1";
                 "note" := JStr "ignored" ]}
              "" ∅)
           (fresh_world 7)).
Proof.
  apply webhook_action_reads_three_fields; vm_compute; reflexivity.
Defined.

(** ** Reading what a client hands back *)

(** [response.data] of what [axios] resolves to. *)
Lemma axios_response_data (status data : JsVal) :
  get_prop (JObj {[ "status" := status; "data" := data ]}) "data" = Return data.
Proof. reflexivity. Qed.

(** A property of [{...a, ...b}]: [b] where it speaks, [a] elsewhere. *)
Lemma spread_lookup (a b : gmap string JsVal) (k : string) :
  spread a b !! k = match b !! k with Some v => Some v | None => a !! k end.
Proof. unfold spread. rewrite lookup_union. by destruct (b !! k), (a !! k). Qed.

(** ** The Payment Gateway Client *)

Section GatewayClient.
Context {runtime : Runtime} {processor : Processor}.
Variable options_ : FoxPay.Options.




Lemma cancelPayment_contract (paymentData : gmap string JsVal) :
  gateway_contract "FoxPay cancel failed: " "cancel_failed"
    (FoxPay.cancelPayment options_ paymentData).
Proof. unfold FoxPay.cancelPayment. contract. Qed.



End GatewayClient.

(** ** The cached credential *)

Section Credential.
Context {runtime : Runtime} {processor : Processor}.
Variable this : CustomPaymentProvider.Instance.

Lemma must_authenticate_spec (s : Sys) :
  CustomPaymentProvider.must_authenticate s
  = (Return (negb (truthy (accessToken s))
             || js_ge (JNum (inject_Z (now s))) (tokenExpiry s)), s).
Proof.
  unfold CustomPaymentProvider.must_authenticate. run.
  by destruct (truthy (accessToken s)).
Qed.

(** With a valid credential [ensureAuthenticated] does nothing. *)
Lemma ensureAuthenticated_valid (s : Sys) :
  credential_cached s → ¬ at_or_past_expiry s →
  CustomPaymentProvider.ensureAuthenticated this s = (Return tt, s).
Proof.
  unfold credential_cached, at_or_past_expiry. intros Hcached Hfresh.
  unfold CustomPaymentProvider.ensureAuthenticated.
  unfold mbind at 1, M_bind at 1. rewrite must_authenticate_spec, Hcached.
  by destruct (js_ge _ _).
Qed.

(** Otherwise it is [authenticate]. *)
Lemma ensureAuthenticated_stale (s : Sys) :
  ¬ credential_cached s ∨ at_or_past_expiry s →
  CustomPaymentProvider.ensureAuthenticated this s = CustomPaymentProvider.authenticate this s.
Proof.
  unfold credential_cached, at_or_past_expiry. intros Hstale.
  unfold CustomPaymentProvider.ensureAuthenticated.
  unfold mbind at 1, M_bind at 1. rewrite must_authenticate_spec.
  destruct (truthy (accessToken s)); [|done].
  destruct Hstale as [Hno | ->]; [by destruct Hno|done].
Qed.

(** A new instance has no credential: its first authenticated call asks
    for a token. *)
Lemma constructor_caches_nothing (process_env : gmap string string) (s : Sys) :
  ¬ credential_cached (snd (CustomPaymentProvider.constructor process_env s)).
Proof. unfold credential_cached. simpl. discriminate. Qed.

(** [authenticate] sends the token request, and nothing else, whatever
    comes back. *)
Lemma authenticate_wire (s : Sys) :
  wire (snd (CustomPaymentProvider.authenticate this s)) = (wire s ++ [token_request this])%list.
Proof.
  unfold CustomPaymentProvider.authenticate, CustomPaymentProvider.rethrow. run.
  fold (token_request this).
  destruct (server (wire s) (token_request this)) as [e|res]; cbn beta iota.
  - by destruct (get_prop e "message").
  - destruct (res_ok res); cbn beta iota; [|done].
    destruct (axios_data res) as [d|e]; cbn beta iota.
    + destruct d; cbn; try done.
    + by destruct (get_prop e "message").
Qed.

Lemma new_requests_app (s s' : Sys) (l : list Request) :
  wire s' = (wire s ++ l)%list → new_requests s s' = l.
Proof. unfold new_requests. intros ->. by rewrite drop_app_length. Qed.

Lemma new_requests_refl (s : Sys) : new_requests s s = [].
Proof. unfold new_requests. by rewrite drop_all. Qed.

(** A 2xx answer with an object for a body replaces both fields of the
    credential: the token as received, the expiry as the time of the answer
    plus [expiresIn * 1000]. *)
Lemma authenticate_refresh (s : Sys) (res : Response) (o : gmap string JsVal) :
  server (wire s) (token_request this) = Answer res →
  res_ok res = true →
  axios_data res = Return (JObj o) →
  CustomPaymentProvider.authenticate this s
  = (Return tt,
     let s' := sent s (token_request this) in
     mkSys (now s') (wire s') (field o "accessToken")
       (js_add (JNum (inject_Z (now s'))) (js_mul (field o "expiresIn") (JNum 1000)))).
Proof.
  intros Hreply Hok Hdata.
  unfold CustomPaymentProvider.authenticate, CustomPaymentProvider.rethrow. run.
  fold (token_request this). by rewrite Hreply, Hok, Hdata.
Qed.

(** [Date.now() + expiresIn * 1000] on numbers is that number. *)
Lemma expiry_value (t : Z) (e : Q) :
  ∃ q, js_add (JNum (inject_Z t)) (js_mul (JNum e) (JNum 1000)) = JNum q
       ∧ (q == inject_Z t + seconds e)%Q.
Proof.
  eexists. split; [reflexivity|].
  unfold seconds. by rewrite !Qred_correct.
Qed.

(** Against a stored number, the test is the order of the rationals. *)
Lemma at_or_past_expiry_number (s : Sys) (e : Q) :
  tokenExpiry s = JNum e → (at_or_past_expiry s ↔ (e <= inject_Z (now s))%Q).
Proof.
  unfold at_or_past_expiry, js_ge. intros ->. simpl. apply Qle_bool_iff.
Qed.

(** An expiry in the future has not been reached. *)
Lemma future_expiry (s : Sys) (e : Q) :
  tokenExpiry s = JNum e → (inject_Z (now s) < e)%Q → ¬ at_or_past_expiry s.
Proof.
  intros He Hlt Hge. apply (at_or_past_expiry_number s e He) in Hge.
  by apply Qlt_not_le in Hlt.
Qed.

(** C5: [ensureAuthenticated] sends the token request, and only it, exactly
    when no credential is cached or the clock has reached the cached expiry,
    and sends nothing otherwise.  With a credential cached whose expiry lies
    in the future, two calls in a row return with the world as it was: the
    same token, no authentication call.  A successful refresh replaces both
    fields of the credential: the token by the one received, the expiry by
    the time of the answer plus [expiresIn], a number of seconds counted on
    the millisecond scale of the clock. *)
Theorem token_refreshed_exactly_when_stale (s : Sys) :
  let s' := snd (CustomPaymentProvider.ensureAuthenticated this s) in
  (new_requests s s' = [token_request this] ↔ ¬ credential_cached s ∨ at_or_past_expiry s)
  ∧ (new_requests s s' = [] ↔ credential_cached s ∧ ¬ at_or_past_expiry s)
  ∧ (∀ e : Q,
       credential_cached s → tokenExpiry s = JNum e → (inject_Z (now s) < e)%Q →
       (_ ← CustomPaymentProvider.ensureAuthenticated this;
        CustomPaymentProvider.ensureAuthenticated this) s = (Return tt, s))
  ∧ (∀ (res : Response) (o : gmap string JsVal) (e : Q),
       ¬ credential_cached s ∨ at_or_past_expiry s →
       server (wire s) (token_request this) = Answer res →
       res_ok res = true →
       axios_data res = Return (JObj o) →
       field o "expiresIn" = JNum e →
       ∃ q : Q,
         CustomPaymentProvider.ensureAuthenticated this s
         = (Return tt,
            mkSys (now s + latency (wire s) (token_request this))
              (wire s ++ [token_request this])
              (field o "accessToken") (JNum q))
         ∧ (q == inject_Z (now s + latency (wire s) (token_request this)) + seconds e)%Q).
Proof.
  intros s'.
  assert (Hcases : (¬ credential_cached s ∨ at_or_past_expiry s)
                   ∨ (credential_cached s ∧ ¬ at_or_past_expiry s)).
  { unfold credential_cached, at_or_past_expiry.
    destruct (truthy (accessToken s)); [|by left; left].
    destruct (js_ge _ _); [by left; right|by right]. }
  assert (Hstale : ¬ credential_cached s ∨ at_or_past_expiry s →
                   new_requests s s' = [token_request this]).
  { intros Hs. apply new_requests_app. subst s'.
    rewrite ensureAuthenticated_stale by done. apply authenticate_wire. }
  assert (Hvalid : credential_cached s ∧ ¬ at_or_past_expiry s → new_requests s s' = []).
  { intros [Hc Hf]. subst s'. rewrite ensureAuthenticated_valid by done.
    apply new_requests_refl. }
  split; [|split; [|split]].
  - split; [|done].
    intros Hreq. destruct Hcases as [Hs|Hv]; [done|].
    rewrite Hvalid in Hreq by done. discriminate.
  - split; [|done].
    intros Hreq. destruct Hcases as [Hs|Hv]; [|done].
    rewrite Hstale in Hreq by done. discriminate.
  - intros e Hc He Hlt. pose proof (future_expiry s e He Hlt) as Hf.
    unfold mbind, M_bind. by rewrite !ensureAuthenticated_valid.
  - intros res o e Hs Hreply Hok Hdata He.
    rewrite ensureAuthenticated_stale by done.
    rewrite (authenticate_refresh s res o) by done. cbn zeta.
    rewrite He.
    destruct (expiry_value (now (sent s (token_request this))) e) as (q & -> & Hq).
    by exists q.
Qed.

End Credential.

(** C5 at work: a new instance at time 5000 receives a token good for an
    hour and stores the expiry 3605000; with that credential, two calls in a
    row leave the world alone. *)
Lemma token_refreshed_exactly_when_stale_witness :
  (∃ q : Q,
     CustomPaymentProvider.ensureAuthenticated
       (runtime:=sample_runtime)
       (processor:=scripted [json_answer 200 (JObj {[ "accessToken" := JStr "tok_1";
                                                "expiresIn" := JNum 3600 ]})])
       sample_instance (fresh_world 5000)
     = (Return tt, mkSys 5000 [token_request sample_instance] (JStr "tok_1") (JNum q))
     ∧ (q == 3605000)%Q)
  ∧ (_ ← CustomPaymentProvider.ensureAuthenticated
           (runtime:=sample_runtime) (processor:=scripted []) sample_instance;
     CustomPaymentProvider.ensureAuthenticated
       (runtime:=sample_runtime) (processor:=scripted []) sample_instance)
      (mkSys 5000 [] (JStr "tok_1") (JNum 3605000))
    = (Return tt, mkSys 5000 [] (JStr "tok_1") (JNum 3605000)).
Proof.
  split.
  - pose proof (token_refreshed_exactly_when_stale
                  (runtime:=sample_runtime)
                  (processor:=scripted [json_answer 200 (JObj {[ "accessToken" := JStr "tok_1";
                                                           "expiresIn" := JNum 3600 ]})])
                  sample_instance (fresh_world 5000)) as (_ & _ & _ & Hrefresh).
    destruct (Hrefresh
                (mkResponse 200
                   (Return (sample_stringify (JObj {[ "accessToken" := JStr "tok_1";
                                                      "expiresIn" := JNum 3600 ]})))
                   (Return (JObj {[ "accessToken" := JStr "tok_1";
                                    "expiresIn" := JNum 3600 ]})))
                {[ "accessToken" := JStr "tok_1"; "expiresIn" := JNum 3600 ]}
                3600%Q) as (q & Hrun & Hq).
    + left. vm_compute. discriminate.
    + reflexivity.
    + reflexivity.
    + reflexivity.
    + vm_compute. reflexivity.
    + exists q. split; [exact Hrun|]. rewrite Hq. reflexivity.
  - pose proof (token_refreshed_exactly_when_stale
                  (runtime:=sample_runtime) (processor:=scripted []) sample_instance
                  (mkSys 5000 [] (JStr "tok_1") (JNum 3605000))) as (_ & _ & Htwice & _).
    apply (Htwice 3605000%Q); [reflexivity|reflexivity|reflexivity].
Defined.




(** ** Authorisation and status *)

Section Status.
Context {runtime : Runtime} {processor : Processor}.
Variable options_ : FoxPay.Options.




(** C7: [getPaymentStatus] maps the processor status [authorized] to
    [authorized], [captured] to [captured], [canceled] to [canceled] and any
    other string to [pending]; when the status query fails, by a response
    outside 2xx or by a transport error, it returns [error]. *)
Theorem getPaymentStatus_maps_processor_status
    (session : gmap string JsVal) (s : Sys) :
  let r := status_request options_ (field session "id") in
  (∀ (res : Response) (d : JsVal) (processor_status : string),
     server (wire s) r = Answer res →
     res_ok res = true →
     res_json res = Return d →
     prop d "status" = JStr processor_status →
     FoxPay.getPaymentStatus options_ session s
     = (Return (JStr (canonical_status processor_status)), sent s r))
  ∧ (∀ res : Response,
       server (wire s) r = Answer res →
       res_ok res = false →
       FoxPay.getPaymentStatus options_ session s = (Return (JStr "error"), sent s r))
  ∧ (∀ e : JsVal,
       server (wire s) r = Unreachable e →
       FoxPay.getPaymentStatus options_ session s = (Return (JStr "error"), sent s r))
  ∧ canonical_status "authorized" = "authorized"
  ∧ canonical_status "captured" = "captured"
  ∧ canonical_status "canceled" = "canceled"
  ∧ (∀ other : string,
       other ≠ "authorized" → other ≠ "captured" → other ≠ "canceled" →
       canonical_status other = "pending").
Proof.
  intros r.
  assert (Hrun : FoxPay.getPaymentStatus options_ session s
                 = (Return
                      match server (wire s) r with
                      | Unreachable _ => JStr "error"
                      | Answer res =>
                          if res_ok res then
                            match res_json res with
                            | Return d =>
                                match get_prop d "status" with
                                | Return (JStr st) => JStr (canonical_status st)
                                | Return _ => JStr "pending"
                                | Throw _ => JStr "error"
                                end
                            | Throw _ => JStr "error"
                            end
                          else JStr "error"
                      end, sent s r)).
  { unfold FoxPay.getPaymentStatus. run.
    fold (status_request options_ (field session "id")). fold r.
    destruct (server (wire s) r) as [e|res]; [done|]. cbn beta iota.
    destruct (res_ok res); [|done]. cbn.
    destruct (res_json res) as [d|e]; [|done]. cbn beta iota.
    destruct (get_prop d "status") as [[]|]; try done. cbn.
    unfold canonical_status. by repeat destruct (String.eqb _ _). }
  repeat split; try done.
  - intros res d st Hreply Hok Hjson Hstatus.
    rewrite Hrun, Hreply, Hok, Hjson.
    assert (get_prop d "status" = Return (JStr st)) as ->; [|done].
    destruct d; try discriminate; by rewrite <- Hstatus.
  - intros res Hreply Hok. by rewrite Hrun, Hreply, Hok.
  - intros e Hreply. by rewrite Hrun, Hreply.
  - intros other H1 H2 H3. unfold canonical_status.
    by rewrite !(proj2 (String.eqb_neq _ _)).
Qed.
End Status.



(** C7 at work: a status the adapter does not know maps to [pending]. *)
Lemma getPaymentStatus_maps_processor_status_witness :
  let session := {[ "id" := JStr "fp_1" ]} in
  FoxPay.getPaymentStatus
    (runtime:=sample_runtime)
    (processor:=scripted [json_answer 200 (JObj {[ "status" := JStr "refunded" ]})])
    (FoxPay.mkOptions "key" None) session (fresh_world 0)
  = (Return (JStr "pending"),
     mkSys 0 [mkRequest "GET" "https://api.foxpay.com/status/fp_1"
                {[ "Authorization" := "Bearer key" ]} JUndefined]
       JNull JNull).
Proof.
  intros session.
  pose proof (getPaymentStatus_maps_processor_status
                (runtime:=sample_runtime)
                (processor:=scripted [json_answer 200 (JObj {[ "status" := JStr "refunded" ]})])
                (FoxPay.mkOptions "key" None) session (fresh_world 0))
    as (Hmapped & _).
  rewrite (Hmapped
             (mkResponse 200
                (Return (sample_stringify (JObj {[ "status" := JStr "refunded" ]})))
                (Return (JObj {[ "status" := JStr "refunded" ]})))
             (JObj {[ "status" := JStr "refunded" ]}) "refunded");
    [|reflexivity|reflexivity|reflexivity|vm_compute; reflexivity].
  vm_compute. reflexivity.
Defined.

(** ** Initiation *)

Section Initiation.
Context {runtime : Runtime} {processor : Processor}.
Variable options_ : FoxPay.Options.
Variable process_env : gmap string string.
Variable this : CustomPaymentProvider.Instance.


Lemma initiate_memo_unknown (amount : JsVal) (code : string) :
  initiate_memo (FoxPay.mkCreate amount code JUndefined) = "Order #unknown".
Proof. reflexivity. Qed.





End Initiation.



(** ** Cancellation *)

Section Cancellation.
Context {runtime : Runtime} {processor : Processor}.
Variable options_ : FoxPay.Options.

(** The JavaScript adapter cancels on paper: it marks the payment data and
    sends nothing. *)
Lemma custom_cancelPayment_marks (paymentData : JsVal) (s : Sys) :
  CustomPaymentProvider.cancelPayment paymentData s
  = (Return (JObj (<["status" := JStr "cancelled"]> (own_props paymentData))), s).
Proof. reflexivity. Qed.

(** Cancelling what a cancellation returned changes nothing. *)
Lemma custom_cancelPayment_idempotent (paymentData cancelled : JsVal) (s s' : Sys) :
  CustomPaymentProvider.cancelPayment paymentData s = (Return cancelled, s) →
  CustomPaymentProvider.cancelPayment cancelled s' = (Return cancelled, s').
Proof.
  rewrite !custom_cancelPayment_marks. intros [= <-]. simpl.
  by rewrite insert_insert_eq.
Qed.

(** FoxPay's [cancelPayment] puts the cancel request on the wire, whatever
    comes back. *)
Lemma cancelPayment_sends (paymentData : gmap string JsVal) (s : Sys) :
  snd (FoxPay.cancelPayment options_ paymentData s)
  = sent s (cancel_request options_ (field paymentData "id")).
Proof.
  unfold FoxPay.cancelPayment. run.
  change (JSON_stringify (JObj ?m)) with (JStr (stringify (JObj m))).
  fold (cancel_request options_ (field paymentData "id")).
  destruct (server (wire s) _) as [e|res]; [done|].
  cbn beta iota. destruct (res_ok res); cbn.
  - destruct (res_json res); done.
  - destruct (res_text res); done.
Qed.

(** An operation that always returns, run on: the world after it. *)
Lemma twice_wire (op : M JsVal) (s : Sys) :
  (∀ s0, ∃ v, fst (op s0) = Return v) →
  snd (twice op s) = snd (op (snd (op s))).
Proof.
  intros Hreturns. unfold twice, mbind, M_bind, mret, M_ret.
  destruct (Hreturns s) as [v Hv]. destruct (op s) as [o s1]. simpl in *. subst o.
  destruct (Hreturns s1) as [v' Hv']. destruct (op s1) as [o' s2]. simpl in *. by subst o'.
Qed.

(** After a 2xx answer whose body decodes, FoxPay's [cancelPayment] hands
    back the payment data with the decoded body spread over them. *)
Lemma cancelPayment_answered
    (paymentData : gmap string JsVal) (data : JsVal) (s : Sys) (res : Response) :
  server (wire s) (cancel_request options_ (field paymentData "id")) = Answer res →
  res_ok res = true →
  res_json res = Return data →
  FoxPay.cancelPayment options_ paymentData s
  = (Return (JObj (spread paymentData (own_props data))),
     sent s (cancel_request options_ (field paymentData "id"))).
Proof.
  intros Hreply Hok Hjson. unfold FoxPay.cancelPayment. run.
  change (JSON_stringify (JObj ?m)) with (JStr (stringify (JObj m))).
  fold (cancel_request options_ (field paymentData "id")).
  by rewrite Hreply, Hok, Hjson.
Qed.

(** C9 (amended): [CustomPaymentProviderService.cancelPayment] is
    idempotent: it sends the processor nothing, returns on every call the
    payment data with the status field overwritten by ['cancelled'] and
    every other property kept, and applied to its own result returns that
    result again.  FoxPay's [cancelPayment] sends one cancel request per
    call, so two calls on the same external id put the same request on the
    wire twice; each call returns what the processor answered to its own
    request, merged over the payment data (the answer wins, property by
    property), or the error record. *)
Theorem cancel_idempotent_only_without_processor
    (paymentData : JsVal) (foxpayData : gmap string JsVal) (s : Sys) :
  (∃ cancelled : gmap string JsVal,
     twice (CustomPaymentProvider.cancelPayment paymentData) s
     = (Return (JObj cancelled, JObj cancelled), s)
     ∧ (∀ k, cancelled !! k = if decide (k = "status") then Some (JStr "cancelled")
                               else own_props paymentData !! k)
     ∧ CustomPaymentProvider.cancelPayment (JObj cancelled) s = (Return (JObj cancelled), s))
  ∧ wire (snd (twice (FoxPay.cancelPayment options_ foxpayData) s))
    = (wire s ++ [cancel_request options_ (field foxpayData "id");
                  cancel_request options_ (field foxpayData "id")])%list
  ∧ gateway_contract "FoxPay cancel failed: " "cancel_failed"
      (FoxPay.cancelPayment options_ foxpayData)
  ∧ (∀ (s0 : Sys) (res : Response) (data : JsVal),
       server (wire s0) (cancel_request options_ (field foxpayData "id")) = Answer res →
       res_ok res = true →
       res_json res = Return data →
       ∃ merged : gmap string JsVal,
         FoxPay.cancelPayment options_ foxpayData s0
         = (Return (JObj merged),
            sent s0 (cancel_request options_ (field foxpayData "id")))
         ∧ ∀ k, merged !! k = match own_props data !! k with
                              | Some v => Some v
                              | None => foxpayData !! k
                              end).
Proof.
  split; [|split; [|split]].
  - eexists. split; [reflexivity|]. split.
    + intros k. case_decide as Hk.
      * subst k. apply lookup_insert_eq.
      * by apply lookup_insert_ne.
    + apply (custom_cancelPayment_idempotent paymentData _ s s).
      apply custom_cancelPayment_marks.
  - rewrite twice_wire.
    + rewrite !cancelPayment_sends. simpl. by rewrite <- app_assoc.
    + intros s0. destruct (cancelPayment_contract options_ foxpayData s0) as (r & v & -> & _).
      by exists v.
  - apply cancelPayment_contract.
  - intros s0 res data Hreply Hok Hjson.
    rewrite (cancelPayment_answered foxpayData data s0 res) by done.
    eexists. split; [reflexivity|]. intros k. apply spread_lookup.
Qed.
End Cancellation.

(** The status the JavaScript adapter writes, letter by letter. *)
Lemma custom_cancel_status_spelling (paymentData : JsVal) (s : Sys) :
  (λ v, prop v "status") <$> fst (CustomPaymentProvider.cancelPayment paymentData s)
  = Return (JStr "cancelled").
Proof. rewrite custom_cancelPayment_marks. simpl. unfold field. by rewrite lookup_insert_eq. Qed.

(** C9 as stated fails: FoxPay's second cancel of the same external id goes
    to the processor again, and when the processor refuses it the second
    result is the [cancel_failed] error, not a canceled status. *)
Lemma foxpay_second_cancel_reaches_processor :
  let processor :=
    scripted [json_answer 200 (JObj {[ "status" := JStr "canceled" ]});
              text_answer 409 "already canceled"] in
  let run :=
    twice (FoxPay.cancelPayment (runtime:=sample_runtime) (processor:=processor)
             (FoxPay.mkOptions "key" None) {[ "id" := JStr "fp_1" ]})
      (fresh_world 0) in
  fst run
  = Return (JObj {[ "id" := JStr "fp_1"; "status" := JStr "canceled" ]},
            FoxPay.PaymentProviderError
              (FoxPay.Error "FoxPay cancel failed: already canceled")
              "cancel_failed" (JStr "already canceled"))
  ∧ length (wire (snd run)) = 2%nat.
Proof. split; vm_compute; reflexivity. Qed.

(** ** Refund *)

Section Refund.
Context {runtime : Runtime} {processor : Processor}.
Variable this : CustomPaymentProvider.Instance.

(** C10: a successful refund hands the processor's status for the operation
    back to the caller, as received but lower-cased, together with the
    payment's stored data, unmodified.  The operation has no other output
    than this record, the refund request on the wire and, where the token
    had to be refreshed first, the credential: the payment it was given,
    its status included, is only read. *)
Theorem refund_reports_status_and_keeps_data
    (payment amount payment_data : JsVal) (s s1 : Sys)
    (res : Response) (answer : gmap string JsVal) (operation_status : string) :
  CustomPaymentProvider.ensureAuthenticated this s = (Return tt, s1) →
  get_prop payment "data" = Return payment_data →
  payment_data ≠ JUndefined → payment_data ≠ JNull →
  let r := refund_request this (accessToken s1)
             (prop payment_data "transactionId") amount in
  server (wire s1) r = Answer res →
  res_ok res = true →
  axios_data res = Return (JObj answer) →
  field answer "status" = JStr operation_status →
  CustomPaymentProvider.refundPayment this payment amount s
  = (Return (JObj {[ "status" := JStr (map_string lower_ascii operation_status);
                     "data" := payment_data ]}),
     sent s1 r).
Proof.
  intros Hauth Hdata Hu Hn r Hreply Hok Hanswer Hstatus.
  unfold CustomPaymentProvider.refundPayment.
  unfold mbind at 1, M_bind at 1. rewrite Hauth.
  unfold CustomPaymentProvider.rethrow. run. rewrite Hdata.
  assert (get_prop payment_data "transactionId"
          = Return (prop payment_data "transactionId")) as ->
    by by destruct payment_data.
  unfold r, refund_request in Hreply. rewrite Hreply, Hok, Hanswer.
  cbn beta iota. rewrite axios_response_data. cbn beta iota.
  change (get_prop (JObj answer) "status") with (Return (field answer "status")).
  rewrite Hstatus. reflexivity.
Qed.
End Refund.

(** C10 at work: the processor answers [REFUNDED] to a refund of 250
    cents. *)
Lemma refund_reports_status_and_keeps_data_witness :
  CustomPaymentProvider.refundPayment
    (runtime:=sample_runtime)
    (processor:=scripted [json_answer 200 (JObj {[ "status" := JStr "REFUNDED" ]})])
    sample_instance sample_payment (JNum 250) authenticated_world
  = (Return (JObj {[ "status" := JStr "refunded";
                     "data" := JObj {[ "transactionId" := JStr "tx_1" ]} ]}),
     mkSys 0
       [mkRequest "POST" "https://api.wlpis.io/api/payment/refund"
          {[ "Authorization" := "Bearer token"; "Content-Type" := "application/json" ]}
          (JObj {[ "paymentTransactionId" := JStr "tx_1"; "amount" := JNum (5 # 2) ]})]
       (JStr "token") (JNum 60000)).
Proof.
  rewrite (refund_reports_status_and_keeps_data
             (runtime:=sample_runtime)
             (processor:=scripted [json_answer 200 (JObj {[ "status" := JStr "REFUNDED" ]})])
             sample_instance sample_payment (JNum 250)
             (JObj {[ "transactionId" := JStr "tx_1" ]})
             authenticated_world authenticated_world
             (mkResponse 200
                (Return (sample_stringify (JObj {[ "status" := JStr "REFUNDED" ]})))
                (Return (JObj {[ "status" := JStr "REFUNDED" ]})))
             {[ "status" := JStr "REFUNDED" ]} "REFUNDED").
  - vm_compute. reflexivity.
  - vm_compute. reflexivity.
  - vm_compute. reflexivity.
  - discriminate.
  - discriminate.
  - vm_compute. reflexivity.
  - reflexivity.
  - reflexivity.
  - vm_compute. reflexivity.
Defined.

(** ** The scenario of the specification, run *)

(** A payment is initiated for 1000 cents in euros and the processor assigns
    [fp_1]; a [payment_captured] callback for [fp_1] is answered with the
    action [captured] for that session. *)
Example captured_webhook_for_initiated_session :
  let options_ := FoxPay.mkOptions "key" None in
  let processor :=
    scripted [json_answer 200 (JObj {[ "id" := JStr "fp_1";
                                       "qr_code_url" := JStr "https://x/y" ]})] in
  let scenario :=
    session ← FoxPay.initiatePayment (runtime:=sample_runtime) (processor:=processor) options_
                (FoxPay.mkCreate (JNum 1000) "EUR" JUndefined);
    session_data ← lift (get_prop session "data");
    action ← FoxPay.getWebhookActionAndData
               (FoxPay.mkWebhookPayload
                  {[ "event_type" := JStr "payment_captured";
                     "session_id" := prop session_data "id" ]}
                  "" ∅);
    mret (prop session_data "id", action) in
  fst (scenario (fresh_world 0))
  = Return (JStr "fp_1",
            JObj {[ "action" := JStr "captured";
                    "data" := JObj {[ "session_id" := JStr "fp_1";
                                      "amount" := JUndefined ]} ]}).
Proof. vm_compute. reflexivity. Qed.

(** * Further properties of the code *)

(** ** The webhook route, case by case *)

Section RouteCases.
Context {runtime : Runtime}.
Import WebhookRoute.

(** X1: a request whose signature header is the HMAC of its re-serialised body
    is acknowledged with 200, and nothing in the world changes. *)
Theorem route_acknowledges_signed_request
    (process_env : gmap string string) (req : ExpressRequest) (secret : string) (s : Sys) :
  process_env !! "PAYMENT_PROVIDER_WEBHOOK_SECRET" = Some secret →
  body req ≠ JUndefined → body req ≠ JNull →
  headers req !! "x-hmac-sha384" = Some (hmac_sha384_hex secret (stringify (body req))) →
  post_payment_webhook process_env req s = (Return (Sent 200 "Webhook received"), s).
Proof.
  intros Hsecret Hu Hn Hsig.
  unfold post_payment_webhook, mbind, M_bind, lift.
  rewrite Hsecret, Hsig, verify_with_secret.
  assert (strict_neq (hmac_sha384_hex secret (stringify (body req)))
            (Some (hmac_sha384_hex secret (stringify (body req)))) = false) as Heq.
  { simpl. by rewrite String.eqb_refl. }
  destruct (body req); try done; rewrite Heq; reflexivity.
Qed.

(** X2: whatever the environment and the request, a response of the route is
    the 401 or the 200: the [catch] branch that would send 500 is never
    taken. *)
Theorem route_answers_401_or_200
    (process_env : gmap string string) (req : ExpressRequest) (s : Sys) :
  match fst (post_payment_webhook process_env req s) with
  | Return response =>
      response = Sent 401 "Invalid signature" ∨ response = Sent 200 "Webhook received"
  | Throw _ => True
  end.
Proof.
  unfold post_payment_webhook, mbind, M_bind, lift.
  destruct (verify _ _ _) as [[|]|e]; simpl; [|by left|done].
  destruct (destructure_body _); simpl; [by right|done].
Qed.

(** X3: with no secret in the environment the handler rejects on every request,
    signed or not: nothing is sent, not even the 401. *)
Theorem route_without_secret_sends_nothing
    (process_env : gmap string string) (req : ExpressRequest) (s : Sys) :
  process_env !! "PAYMENT_PROVIDER_WEBHOOK_SECRET" = None →
  post_payment_webhook process_env req s
  = (Throw (TypeError "The 'key' argument must be of type string. Received undefined"), s).
Proof.
  intros Hsecret. unfold post_payment_webhook, mbind, M_bind, lift.
  by rewrite Hsecret.
Qed.
End RouteCases.

(** X1 at work: a signed empty object is acknowledged. *)
Lemma route_acknowledges_signed_request_witness :
  WebhookRoute.post_payment_webhook (runtime:=sample_runtime)
    {[ "PAYMENT_PROVIDER_WEBHOOK_SECRET" := "k" ]}
    (WebhookRoute.mkExpressRequest (JObj ∅) {[ "x-hmac-sha384" := "hmac[k]({})" ]})
    (fresh_world 0)
  = (Return (WebhookRoute.Sent 200 "Webhook received"), fresh_world 0).
Proof.
  eapply (route_acknowledges_signed_request (runtime:=sample_runtime) _ _ "k").
  - vm_compute; reflexivity.
  - discriminate.
  - discriminate.
  - vm_compute; reflexivity.
Defined.

(** X3 at work: with an empty environment even a request without a signature gets no
    answer. *)
Lemma route_without_secret_sends_nothing_witness :
  returned (fst (WebhookRoute.post_payment_webhook (runtime:=sample_runtime) ∅
                   (WebhookRoute.mkExpressRequest (JObj ∅) ∅) (fresh_world 0)))
  = false.
Proof.
  rewrite (route_without_secret_sends_nothing (runtime:=sample_runtime) ∅
             (WebhookRoute.mkExpressRequest (JObj ∅) ∅) (fresh_world 0));
    [reflexivity|].
  vm_compute; reflexivity.
Defined.

(** ** The FoxPay client, operation by operation *)

Lemma prefix_append (a b : string) : String.prefix a (a ++ b) = true.
Proof.
  induction a as [|c a IH]; simpl; [by destruct b|].
  by destruct (ascii_dec c c).
Qed.

Section FoxPayOperations.
Context {runtime : Runtime} {processor : Processor}.
Variable options_ : FoxPay.Options.

(** One request, to the base URL, under the API key. *)
Ltac authenticated :=
  intros s; run;
  match goal with
  | |- context [server ?tr ?r] => exists r
  end;
  split; [|split; [reflexivity|apply prefix_append]];
  match goal with
  | |- context [server ?tr ?r] => destruct (server tr r) as [?|?]; [done|]
  end;
  cbn beta iota;
  match goal with
  | res : Response |- _ =>
      destruct (res_ok res); cbn;
      [destruct (res_json res) as [[]|]; try done
      |destruct (res_text res); try done]
  end;
  cbn; repeat (destruct (strict_eq_str _ _); try done).

Lemma initiatePayment_authenticated (ctx : FoxPay.CreatePaymentProviderSession) :
  sends_authenticated options_ (FoxPay.initiatePayment options_ ctx).
Proof. unfold FoxPay.initiatePayment. authenticated. Qed.
Lemma authorizePayment_authenticated (session : gmap string JsVal) (context : JsVal) :
  sends_authenticated options_ (FoxPay.authorizePayment options_ session context).
Proof. unfold FoxPay.authorizePayment. authenticated. Qed.

Lemma capturePayment_authenticated (paymentData : gmap string JsVal) :
  sends_authenticated options_ (FoxPay.capturePayment options_ paymentData).
Proof. unfold FoxPay.capturePayment. authenticated. Qed.

Lemma cancelPayment_authenticated (paymentData : gmap string JsVal) :
  sends_authenticated options_ (FoxPay.cancelPayment options_ paymentData).
Proof. unfold FoxPay.cancelPayment. authenticated. Qed.

Lemma getPaymentStatus_authenticated (session : gmap string JsVal) :
  sends_authenticated options_ (FoxPay.getPaymentStatus options_ session).
Proof. unfold FoxPay.getPaymentStatus. authenticated. Qed.

Lemma refundPayment_authenticated (paymentData : gmap string JsVal) (refundAmount : JsVal) :
  sends_authenticated options_ (FoxPay.refundPayment options_ paymentData refundAmount).
Proof. unfold FoxPay.refundPayment. authenticated. Qed.

Lemma retrievePayment_authenticated (session : gmap string JsVal) :
  sends_authenticated options_ (FoxPay.retrievePayment options_ session).
Proof. unfold FoxPay.retrievePayment. authenticated. Qed.

Lemma updatePayment_authenticated (ctx : FoxPay.UpdatePaymentProviderSession) :
  sends_authenticated options_ (FoxPay.updatePayment options_ ctx).
Proof. unfold FoxPay.updatePayment. authenticated. Qed.

(** X4: every operation of the FoxPay adapter that talks to the processor
    sends exactly one request per call, to an address under the base URL,
    with the API key of the options as bearer token, and leaves the rest of
    the world as it was. *)
Theorem foxpay_requests_carry_the_api_key :
  (∀ ctx, sends_authenticated options_ (FoxPay.initiatePayment options_ ctx))
  ∧ (∀ session context,
       sends_authenticated options_ (FoxPay.authorizePayment options_ session context))
  ∧ (∀ paymentData, sends_authenticated options_ (FoxPay.capturePayment options_ paymentData))
  ∧ (∀ paymentData, sends_authenticated options_ (FoxPay.cancelPayment options_ paymentData))
  ∧ (∀ session, sends_authenticated options_ (FoxPay.deletePayment options_ session))
  ∧ (∀ session, sends_authenticated options_ (FoxPay.getPaymentStatus options_ session))
  ∧ (∀ paymentData refundAmount,
       sends_authenticated options_ (FoxPay.refundPayment options_ paymentData refundAmount))
  ∧ (∀ session, sends_authenticated options_ (FoxPay.retrievePayment options_ session))
  ∧ (∀ ctx, sends_authenticated options_ (FoxPay.updatePayment options_ ctx)).
Proof.
  repeat split; intros.
  - apply initiatePayment_authenticated.
  - apply authorizePayment_authenticated.
  - apply capturePayment_authenticated.
  - apply cancelPayment_authenticated.
  - apply cancelPayment_authenticated.
  - apply getPaymentStatus_authenticated.
  - apply refundPayment_authenticated.
  - apply retrievePayment_authenticated.
  - apply updatePayment_authenticated.
Qed.

(** [getPaymentStatus], by what the status query reports. *)
Lemma getPaymentStatus_run (session : gmap string JsVal) (s : Sys) :
  let r := status_request options_ (field session "id") in
  FoxPay.getPaymentStatus options_ session s
  = (Return (JStr match reported_status (server (wire s) r) with
                  | Some status =>
                      if strict_eq_str status "authorized" then "authorized"
                      else if strict_eq_str status "captured" then "captured"
                      else if strict_eq_str status "canceled" then "canceled"
                      else "pending"
                  | None => "error"
                  end),
     sent s r).
Proof.
  intros r. unfold FoxPay.getPaymentStatus, reported_status. run.
  fold (status_request options_ (field session "id")). fold r.
  destruct (server (wire s) r) as [e|res]; [done|]. cbn beta iota.
  destruct (res_ok res); [|done]. cbn.
  destruct (res_json res) as [d|e]; [|done]. cbn beta iota.
  destruct (get_prop d "status") as [status|]; [|done]. cbn beta iota.
  by repeat destruct (strict_eq_str status _).
Qed.

(** [authorizePayment], by what the status query reports. *)
Lemma authorizePayment_run (session : gmap string JsVal) (context : JsVal) (s : Sys) :
  let r := status_request options_ (field session "id") in
  ∃ v, FoxPay.authorizePayment options_ session context s = (Return v, sent s r)
       ∧ (v = JObj {[ "status" := JStr "authorized"; "data" := JObj session ]}
          ↔ ∃ status, reported_status (server (wire s) r) = Some status
                      ∧ strict_eq_str status "authorized" = true).
Proof.
  intros r. unfold FoxPay.authorizePayment, reported_status. run.
  fold (status_request options_ (field session "id")). fold r.
  destruct (server (wire s) r) as [e|res]; cbn beta iota.
  { eexists. split; [reflexivity|]. split; [discriminate|]. by intros (? & ? & ?). }
  destruct (res_ok res); cbn.
  - destruct (res_json res) as [d|e]; cbn beta iota.
    + destruct (get_prop d "status") as [status|]; cbn beta iota.
      * destruct (strict_eq_str status "authorized") eqn:Hst.
        -- eexists. split; [reflexivity|]. split; [by exists status|done].
        -- eexists. split; [reflexivity|]. split; [discriminate|].
           intros (st & [= <-] & Heq). congruence.
      * eexists. split; [reflexivity|]. split; [discriminate|]. by intros (? & ? & ?).
    + eexists. split; [reflexivity|]. split; [discriminate|]. by intros (? & ? & ?).
  - destruct (res_text res); cbn beta iota;
      (eexists; split; [reflexivity|]; split; [discriminate|]; by intros (? & ? & ?)).
Qed.

(** X5: in every world and against every processor [getPaymentStatus] returns,
    and what it returns is one of the five session statuses; it never
    throws and never passes a processor status through. *)
Theorem getPaymentStatus_reports_a_session_status (session : gmap string JsVal) (s : Sys) :
  ∃ status : string,
    fst (FoxPay.getPaymentStatus options_ session s) = Return (JStr status)
    ∧ status ∈ session_statuses.
Proof.
  rewrite getPaymentStatus_run. simpl. unfold session_statuses.
  destruct (reported_status _) as [status|].
  - destruct (strict_eq_str status "authorized"); [eexists; split; [done|set_solver]|].
    destruct (strict_eq_str status "captured"); [eexists; split; [done|set_solver]|].
    destruct (strict_eq_str status "canceled"); eexists; (split; [done|set_solver]).
  - eexists; split; [done|set_solver].
Qed.

(** X6: [authorizePayment] and [getPaymentStatus] agree: from the same world,
    the one returns the authorized session exactly when the other reports
    [authorized], and both leave the same world behind, with the same one
    status query on the wire. *)
Theorem authorize_agrees_with_getPaymentStatus
    (session : gmap string JsVal) (context : JsVal) (s : Sys) :
  (fst (FoxPay.authorizePayment options_ session context s)
   = Return (JObj {[ "status" := JStr "authorized"; "data" := JObj session ]})
   ↔ fst (FoxPay.getPaymentStatus options_ session s) = Return (JStr "authorized"))
  ∧ snd (FoxPay.authorizePayment options_ session context s)
    = snd (FoxPay.getPaymentStatus options_ session s).
Proof.
  destruct (authorizePayment_run session context s) as (v & Hrun & Hv).
  rewrite Hrun, getPaymentStatus_run. simpl. split; [|done].
  split.
  - intros [= ->]. destruct (proj1 Hv eq_refl) as (status & -> & ->). done.
  - destruct (reported_status _) as [status|]; [|discriminate].
    destruct (strict_eq_str status "authorized") eqn:Hst.
    + intros _. f_equal. apply Hv. by exists status.
    + by repeat destruct (strict_eq_str status _).
Qed.

Lemma capturePayment_success
    (paymentData answer : gmap string JsVal) (s : Sys) (res : Response) :
  server (wire s) (capture_request options_ (field paymentData "id")) = Answer res →
  res_ok res = true →
  res_json res = Return (JObj answer) →
  FoxPay.capturePayment options_ paymentData s
  = (Return (JObj (spread paymentData answer)),
     sent s (capture_request options_ (field paymentData "id"))).
Proof.
  intros Hreply Hok Hjson. unfold FoxPay.capturePayment. run.
  change (JSON_stringify (JObj ?m)) with (JStr (stringify (JObj m))).
  fold (capture_request options_ (field paymentData "id")).
  by rewrite Hreply, Hok, Hjson.
Qed.

Lemma cancelPayment_success
    (paymentData answer : gmap string JsVal) (s : Sys) (res : Response) :
  server (wire s) (cancel_request options_ (field paymentData "id")) = Answer res →
  res_ok res = true →
  res_json res = Return (JObj answer) →
  FoxPay.cancelPayment options_ paymentData s
  = (Return (JObj (spread paymentData answer)),
     sent s (cancel_request options_ (field paymentData "id"))).
Proof.
  intros Hreply Hok Hjson. unfold FoxPay.cancelPayment. run.
  change (JSON_stringify (JObj ?m)) with (JStr (stringify (JObj m))).
  fold (cancel_request options_ (field paymentData "id")).
  by rewrite Hreply, Hok, Hjson.
Qed.

Lemma refundPayment_success
    (paymentData answer : gmap string JsVal) (refundAmount : JsVal) (s : Sys)
    (res : Response) :
  server (wire s) (foxpay_refund_request options_ (field paymentData "id") refundAmount)
  = Answer res →
  res_ok res = true →
  res_json res = Return (JObj answer) →
  FoxPay.refundPayment options_ paymentData refundAmount s
  = (Return (JObj (spread paymentData answer)),
     sent s (foxpay_refund_request options_ (field paymentData "id") refundAmount)).
Proof.
  intros Hreply Hok Hjson. unfold FoxPay.refundPayment. run.
  change (JSON_stringify (JObj ?m)) with (JStr (stringify (JObj m))).
  fold (foxpay_refund_request options_ (field paymentData "id") refundAmount).
  by rewrite Hreply, Hok, Hjson.
Qed.

(** X7: after a capture the processor answered with an object, the data handed
    back have, property by property, the value of the answer where the
    answer has the property and the value of the payment data elsewhere:
    nothing the adapter stored is lost, and anything, the id included, can
    be overwritten by the processor. *)
Theorem capture_keeps_what_the_answer_leaves
    (paymentData answer : gmap string JsVal) (s : Sys) (res : Response) :
  server (wire s) (capture_request options_ (field paymentData "id")) = Answer res →
  res_ok res = true →
  res_json res = Return (JObj answer) →
  ∃ captured : gmap string JsVal,
    fst (FoxPay.capturePayment options_ paymentData s) = Return (JObj captured)
    ∧ ∀ k, captured !! k = match answer !! k with
                           | Some v => Some v
                           | None => paymentData !! k
                           end.
Proof.
  intros Hreply Hok Hjson. rewrite (capturePayment_success _ answer _ res) by done.
  eexists. split; [reflexivity|]. apply spread_lookup.
Qed.

(** X8: after a refund the processor answered with an object, the amount
    has gone to the processor as it was given, and the data handed back are
    the payment data overlaid with the answer, property by property. *)
Theorem refund_keeps_what_the_answer_leaves
    (paymentData answer : gmap string JsVal) (refundAmount : JsVal) (s : Sys)
    (res : Response) :
  server (wire s) (foxpay_refund_request options_ (field paymentData "id") refundAmount)
  = Answer res →
  res_ok res = true →
  res_json res = Return (JObj answer) →
  ∃ refunded : gmap string JsVal,
    FoxPay.refundPayment options_ paymentData refundAmount s
    = (Return (JObj refunded),
       sent s (foxpay_refund_request options_ (field paymentData "id") refundAmount))
    ∧ ∀ k, refunded !! k = match answer !! k with
                           | Some v => Some v
                           | None => paymentData !! k
                           end.
Proof.
  intros Hreply Hok Hjson. rewrite (refundPayment_success _ answer _ _ res) by done.
  eexists. split; [reflexivity|]. apply spread_lookup.
Qed.

(** X9: [deletePayment] is [cancelPayment] as far as the processor can tell:
    the same request goes out and the same world is left.  What it hands
    back after a 2xx object is the id overlaid with the answer: every other
    property of the session is dropped. *)
Theorem delete_cancels_and_forgets_the_session
    (session : gmap string JsVal) (s : Sys) :
  snd (FoxPay.deletePayment options_ session s)
  = snd (FoxPay.cancelPayment options_ session s)
  ∧ (∀ (res : Response) (answer : gmap string JsVal),
       server (wire s) (cancel_request options_ (field session "id")) = Answer res →
       res_ok res = true →
       res_json res = Return (JObj answer) →
       ∃ deleted : gmap string JsVal,
         fst (FoxPay.deletePayment options_ session s) = Return (JObj deleted)
         ∧ ∀ k, deleted !! k = match answer !! k with
                               | Some v => Some v
                               | None => if decide (k = "id")
                                         then Some (field session "id")
                                         else None
                               end).
Proof.
  unfold FoxPay.deletePayment.
  assert (Hid : field ({[ "id" := field session "id" ]} : gmap string JsVal) "id"
                = field session "id") by (unfold field at 1; by rewrite lookup_singleton_eq).
  split.
  - by rewrite !cancelPayment_sends, Hid.
  - intros res answer Hreply Hok Hjson.
    rewrite (cancelPayment_success _ answer _ res); [|by rewrite Hid|done|done].
    eexists. split; [reflexivity|]. intros k. rewrite spread_lookup.
    destruct (answer !! k); [done|].
    case_decide as Hk; [subst k; by rewrite lookup_singleton_eq|].
    by rewrite lookup_singleton_ne.
Qed.

(** X10: of the session, [retrievePayment] and [getPaymentStatus] read the id
    and nothing else: two sessions with the same id get the same result and
    leave the same world. *)
Theorem retrieve_and_status_read_only_the_id
    (session1 session2 : gmap string JsVal) (s : Sys) :
  field session1 "id" = field session2 "id" →
  FoxPay.retrievePayment options_ session1 s = FoxPay.retrievePayment options_ session2 s
  ∧ FoxPay.getPaymentStatus options_ session1 s = FoxPay.getPaymentStatus options_ session2 s.
Proof.
  intros Hid. unfold FoxPay.retrievePayment, FoxPay.getPaymentStatus.
  by rewrite Hid.
Qed.

(** What goes out for an update is the update request, whatever comes
    back. *)
Lemma updatePayment_sends (ctx : FoxPay.UpdatePaymentProviderSession) (s : Sys) :
  snd (FoxPay.updatePayment options_ ctx s) = sent s (update_request options_ ctx).
Proof.
  unfold FoxPay.updatePayment. run.
  fold (update_memo ctx).
  change (JSON_stringify (JObj ?m)) with (JStr (stringify (JObj m))).
  fold (update_request options_ ctx).
  destruct (server (wire s) (update_request options_ ctx)) as [e|res]; [done|].
  cbn beta iota. destruct (res_ok res); cbn.
  - destruct (res_json res) as [[]|]; done.
  - destruct (res_text res); done.
Qed.

(** X11: [updatePayment] sends the id of the session, the amount as given, the
    currency code upper-cased and the memo [Order Update #<cart id>].  After
    a 2xx object it hands back the properties of the answer with
    [data = {id, verwendungszweck}], where the id is the one of the answer,
    not the one sent: an answer without [id] leaves the session data
    without one. *)
Theorem update_takes_the_id_from_the_answer
    (ctx : FoxPay.UpdatePaymentProviderSession) (s : Sys) (res : Response)
    (answer : gmap string JsVal) :
  server (wire s) (update_request options_ ctx) = Answer res →
  res_ok res = true →
  res_json res = Return (JObj answer) →
  FoxPay.updatePayment options_ ctx s
  = (Return (JObj (<["data" := JObj {[ "id" := field answer "id";
                                       "verwendungszweck" := JStr (update_memo ctx) ]}]>
                     answer)),
     sent s (update_request options_ ctx))
  ∧ (answer !! "id" = None →
     ∃ updated, fst (FoxPay.updatePayment options_ ctx s) = Return updated
                ∧ prop (prop updated "data") "id" = JUndefined).
Proof.
  intros Hreply Hok Hjson.
  assert (Hrun : FoxPay.updatePayment options_ ctx s
                 = (Return (JObj (<["data" :=
                                      JObj {[ "id" := field answer "id";
                                              "verwendungszweck" := JStr (update_memo ctx) ]}]>
                                    answer)),
                    sent s (update_request options_ ctx))).
  { unfold FoxPay.updatePayment. run.
    fold (update_memo ctx).
    change (JSON_stringify (JObj ?m)) with (JStr (stringify (JObj m))).
    fold (update_request options_ ctx).
    by rewrite Hreply, Hok, Hjson. }
  split; [done|].
  intros Hnone. rewrite Hrun. eexists. split; [reflexivity|].
  unfold prop at 2, field at 1. rewrite lookup_insert_eq. simpl.
  unfold field at 1. rewrite lookup_insert_eq. simpl.
  unfold field. by rewrite Hnone.
Qed.
End FoxPayOperations.

(** ** The credential of the JavaScript adapter, at its edges *)

Section CredentialEdges.
Context {runtime : Runtime} {processor : Processor}.
Variable this : CustomPaymentProvider.Instance.

(** X12: [authenticate] either throws and leaves the credential as it was, or
    returns with both fields replaced from one and the same answer: the
    token is never renewed without its expiry, nor the expiry without the
    token. *)
Theorem authenticate_all_or_nothing (s : Sys) :
  let s' := snd (CustomPaymentProvider.authenticate this s) in
  match fst (CustomPaymentProvider.authenticate this s) with
  | Throw _ => accessToken s' = accessToken s ∧ tokenExpiry s' = tokenExpiry s
  | Return _ =>
      ∃ (res : Response) (d : JsVal),
        server (wire s) (token_request this) = Answer res
        ∧ res_ok res = true
        ∧ axios_data res = Return d
        ∧ accessToken s' = prop d "accessToken"
        ∧ tokenExpiry s'
          = js_add (JNum (inject_Z (now s'))) (js_mul (prop d "expiresIn") (JNum 1000))
  end.
Proof.
  unfold CustomPaymentProvider.authenticate, CustomPaymentProvider.rethrow. run.
  fold (token_request this).
  destruct (server (wire s) (token_request this)) as [e|res]; cbn beta iota.
  - by destruct (get_prop e "message").
  - destruct (res_ok res) eqn:Hok; cbn beta iota; [|done].
    destruct (axios_data res) as [d|e] eqn:Hdata; cbn beta iota.
    + rewrite axios_response_data. cbn beta iota.
      destruct d; cbn; try done; by eexists _, _.
    + by destruct (get_prop e "message").
Qed.

(** X13: an answer of the token endpoint that carries no [expiresIn] yields a
    credential that never expires: whatever the clock shows later, with
    that credential [ensureAuthenticated] does not ask again. *)
Theorem credential_without_expiresIn_never_expires
    (s : Sys) (res : Response) (answer : gmap string JsVal) :
  server (wire s) (token_request this) = Answer res →
  res_ok res = true →
  axios_data res = Return (JObj answer) →
  truthy (field answer "accessToken") = true →
  answer !! "expiresIn" = None →
  let s1 := snd (CustomPaymentProvider.authenticate this s) in
  ∀ (later : Z) (trace : list Request),
    let s2 := mkSys later trace (accessToken s1) (tokenExpiry s1) in
    CustomPaymentProvider.ensureAuthenticated this s2 = (Return tt, s2).
Proof.
  intros Hreply Hok Hdata Htoken Hnone s1 later trace s2.
  subst s1 s2. rewrite (authenticate_refresh this s res answer) by done. cbn zeta. simpl.
  apply ensureAuthenticated_valid.
  - exact Htoken.
  - unfold at_or_past_expiry, field. rewrite Hnone. simpl. discriminate.
Qed.

(** X14: an answer whose token is empty or missing is stored but never counts as
    a credential: the next call asks for a token again, however far away
    the expiry it came with. *)
Theorem falsy_token_is_asked_for_again
    (s : Sys) (res : Response) (answer : gmap string JsVal) :
  server (wire s) (token_request this) = Answer res →
  res_ok res = true →
  axios_data res = Return (JObj answer) →
  truthy (field answer "accessToken") = false →
  let s1 := snd (CustomPaymentProvider.authenticate this s) in
  new_requests s1 (snd (CustomPaymentProvider.ensureAuthenticated this s1))
  = [token_request this].
Proof.
  intros Hreply Hok Hdata Htoken s1. apply new_requests_app.
  rewrite ensureAuthenticated_stale; [apply authenticate_wire|].
  left. unfold credential_cached. subst s1.
  rewrite (authenticate_refresh this s res answer) by done. cbn zeta. simpl.
  by rewrite Htoken.
Qed.

(** X15: a new instance has nothing cached, whatever was cached before it was
    built: its first authenticated call sends the token request, to the
    address and with the keys the environment gives. *)
Theorem new_instance_authenticates_first (process_env : gmap string string) (s : Sys) :
  ∃ instance : CustomPaymentProvider.Instance,
    CustomPaymentProvider.constructor process_env s
    = (Return instance, mkSys (now s) (wire s) JNull JNull)
    ∧ new_requests s
        (snd ((instance ← CustomPaymentProvider.constructor process_env;
               CustomPaymentProvider.ensureAuthenticated instance) s))
      = [mkRequest "POST"
           (CustomPaymentProvider.env_or process_env "PAYMENT_PROVIDER_AUTH_URL"
              "https://auth.wlpis.io" ++ "/api/token/project")
           {[ "Content-Type" := "application/json" ]}
           (JObj {[ "projectAccessKey" :=
                      CustomPaymentProvider.env_get process_env "PAYMENT_PROVIDER_ACCESS_KEY";
                    "projectSecretKey" :=
                      CustomPaymentProvider.env_get process_env "PAYMENT_PROVIDER_SECRET_KEY"
                 ]})].
Proof.
  eexists. split; [reflexivity|].
  unfold mbind at 1, M_bind at 1. cbn beta iota.
  change (CustomPaymentProvider.constructor process_env s)
    with (Return
            (CustomPaymentProvider.mkInstance
               (CustomPaymentProvider.env_or process_env "PAYMENT_PROVIDER_API_URL"
                  "https://api.wlpis.io")
               (CustomPaymentProvider.env_or process_env "PAYMENT_PROVIDER_AUTH_URL"
                  "https://auth.wlpis.io")
               (CustomPaymentProvider.env_get process_env "PAYMENT_PROVIDER_ACCESS_KEY")
               (CustomPaymentProvider.env_get process_env "PAYMENT_PROVIDER_SECRET_KEY")),
          mkSys (now s) (wire s) JNull JNull).
  cbn beta iota.
  rewrite ensureAuthenticated_stale by (left; unfold credential_cached; simpl; discriminate).
  unfold new_requests. rewrite authenticate_wire. simpl.
  by rewrite drop_app_length.
Qed.
End CredentialEdges.

(** ** The JavaScript adapter, when things are missing *)

Section CustomEdges.
Context {runtime : Runtime} {processor : Processor}.
Variable process_env : gmap string string.
Variable this : CustomPaymentProvider.Instance.

(** A token request answered outside 2xx is raised as an authentication
    failure. *)
Lemma authenticate_rejected (s : Sys) (res : Response) :
  server (wire s) (token_request this) = Answer res →
  res_ok res = false →
  CustomPaymentProvider.authenticate this s
  = (Throw (CustomPaymentProvider.Error
              ("Authentication failed: Request failed with status code " ++
               Number_toString (inject_Z (res_status res)))),
     sent s (token_request this)).
Proof.
  intros Hreply Hok.
  unfold CustomPaymentProvider.authenticate, CustomPaymentProvider.rethrow. run.
  fold (token_request this). by rewrite Hreply, Hok.
Qed.

(** X16: when the credential has to be renewed and the token endpoint refuses,
    [createPayment], [refundPayment] and [getStatus] stop there: the
    authentication failure is what they raise, under its own message and not
    under theirs, and the token request is the only request that went
    out. *)
Theorem failed_authentication_stops_the_operation
    (cart payment amount paymentData : JsVal) (s : Sys) (res : Response) :
  ¬ credential_cached s ∨ at_or_past_expiry s →
  server (wire s) (token_request this) = Answer res →
  res_ok res = false →
  let failure :=
    (Throw (CustomPaymentProvider.Error
              ("Authentication failed: Request failed with status code " ++
               Number_toString (inject_Z (res_status res)))),
     sent s (token_request this)) in
  CustomPaymentProvider.createPayment process_env this cart s = failure
  ∧ CustomPaymentProvider.refundPayment this payment amount s = failure
  ∧ CustomPaymentProvider.getStatus this paymentData s = failure.
Proof.
  intros Hstale Hreply Hok failure. subst failure.
  split; [|split].
  - unfold CustomPaymentProvider.createPayment. unfold mbind at 1, M_bind at 1.
    by rewrite ensureAuthenticated_stale, (authenticate_rejected s res).
  - unfold CustomPaymentProvider.refundPayment. unfold mbind at 1, M_bind at 1.
    by rewrite ensureAuthenticated_stale, (authenticate_rejected s res).
  - unfold CustomPaymentProvider.getStatus. unfold mbind at 1, M_bind at 1.
    by rewrite ensureAuthenticated_stale, (authenticate_rejected s res).
Qed.

(** X17: a cart without a region, or with a currency code that is not a string,
    makes [createPayment] throw a [TypeError] of the runtime, outside its
    own [try]: with a valid credential nothing is sent at all. *)
Theorem createPayment_needs_region_and_currency (cart : gmap string JsVal) (s : Sys) :
  credential_cached s → ¬ at_or_past_expiry s →
  (field cart "region" = JUndefined
   ∨ ∃ region : gmap string JsVal,
       field cart "region" = JObj region
       ∧ ∀ code, field region "currency_code" ≠ JStr code) →
  ∃ msg, CustomPaymentProvider.createPayment process_env this (JObj cart) s
         = (Throw (TypeError msg), s).
Proof.
  intros Hcached Hfresh Hcart.
  unfold CustomPaymentProvider.createPayment.
  unfold mbind at 1, M_bind at 1. rewrite ensureAuthenticated_valid by done.
  run. unfold get_prop at 1 2, prop.
  destruct Hcart as [->|(region & -> & Hcode)]; [by eexists|].
  cbn beta iota. unfold get_prop at 1, prop. cbn beta iota.
  destruct (field region "currency_code"); cbn; try by eexists.
  exfalso. by eapply Hcode.
Qed.

(** X18: a payment without stored data makes [refundPayment] and [getStatus]
    fail before anything is sent; the [TypeError] of the runtime comes back
    wrapped in the message of the operation. *)
Theorem refund_and_status_need_payment_data
    (payment : gmap string JsVal) (amount : JsVal) (s : Sys) :
  credential_cached s → ¬ at_or_past_expiry s →
  payment !! "data" = None →
  CustomPaymentProvider.refundPayment this (JObj payment) amount s
  = (Throw (CustomPaymentProvider.Error
              "Refund failed: Cannot read properties of undefined (reading 'transactionId')"),
     s)
  ∧ CustomPaymentProvider.getStatus this (JObj payment) s
    = (Throw (CustomPaymentProvider.Error
                "Failed to get payment status: Cannot read properties of undefined (reading 'transactionId')"),
       s).
Proof.
  intros Hcached Hfresh Hnone. split.
  - unfold CustomPaymentProvider.refundPayment.
    unfold mbind at 1, M_bind at 1. rewrite ensureAuthenticated_valid by done.
    unfold CustomPaymentProvider.rethrow. run.
    unfold get_prop at 1, prop, field. rewrite Hnone. reflexivity.
  - unfold CustomPaymentProvider.getStatus.
    unfold mbind at 1, M_bind at 1. rewrite ensureAuthenticated_valid by done.
    unfold CustomPaymentProvider.rethrow. run.
    unfold get_prop at 1, prop, field. rewrite Hnone. reflexivity.
Qed.




(** X20: [updatePaymentData] overlays the update on the session data: property
    by property the update wins where it has the property and the session
    data stay elsewhere; the same update applied again changes nothing; and
    nothing is sent. *)
Theorem updatePaymentData_overlays (paymentSessionData update : JsVal) (s : Sys) :
  ∃ updated : gmap string JsVal,
    CustomPaymentProvider.updatePaymentData paymentSessionData update s
    = (Return (JObj updated), s)
    ∧ (∀ k, updated !! k = match own_props update !! k with
                           | Some v => Some v
                           | None => own_props paymentSessionData !! k
                           end)
    ∧ CustomPaymentProvider.updatePaymentData (JObj updated) update s
      = (Return (JObj updated), s).
Proof.
  eexists. split; [reflexivity|]. split; [apply spread_lookup|].
  unfold CustomPaymentProvider.updatePaymentData, spread, mret, M_ret. simpl.
  by rewrite (assoc (∪)), (idemp (∪)).
Qed.

(** X21: [updatePayment] overlays an update on the [data] of a session and keeps
    every other property of the session.  Two updates in a row are the one
    update with both overlaid, the later one on top, so the same update
    applied again changes nothing; and nothing is sent. *)
Theorem updatePayment_composes (session : gmap string JsVal) (first second : JsVal) (s : Sys) :
  ∃ once : JsVal,
    CustomPaymentProvider.updatePayment (JObj session) first s = (Return once, s)
    ∧ (∀ k, k ≠ "data" → prop once k = field session k)
    ∧ CustomPaymentProvider.updatePayment once second s
      = CustomPaymentProvider.updatePayment (JObj session)
          (JObj (spread (own_props first) (own_props second))) s
    ∧ CustomPaymentProvider.updatePayment once first s = (Return once, s).
Proof.
  eexists. split; [reflexivity|]. split; [|split].
  - intros k Hk. simpl. unfold field. by rewrite lookup_insert_ne.
  - unfold CustomPaymentProvider.updatePayment, spread. run. simpl.
    unfold field at 1. rewrite lookup_insert_eq. simpl.
    by rewrite insert_insert_eq, (assoc (∪)).
  - unfold CustomPaymentProvider.updatePayment, spread. run. simpl.
    unfold field at 1. rewrite lookup_insert_eq. simpl.
    by rewrite insert_insert_eq, (assoc (∪)), (idemp (∪)).
Qed.





End CustomEdges.

(** ** The storefront configuration *)

Lemma strip_protocol_https (host : string) :
  NextConfig.strip_protocol ("https://" ++ host) = host.
Proof. unfold NextConfig.strip_protocol. simpl. by destruct host. Qed.

Lemma strip_protocol_http (host : string) :
  NextConfig.strip_protocol ("http://" ++ host) = host.
Proof. unfold NextConfig.strip_protocol. simpl. by destruct host. Qed.

(** X24: when the backend URL of the environment is a host behind [https://] or
    [http://], the second remote pattern allows exactly that host, over
    https, whatever the host: also the empty one, for which the fallback
    [example.com] is not used. *)
Theorem backend_pattern_is_the_host_of_the_url
    (process_env : gmap string string) (scheme host : string) :
  scheme = "https://" ∨ scheme = "http://" →
  process_env !! "NEXT_PUBLIC_MEDUSA_BACKEND_URL" = Some (scheme ++ host) →
  NextConfig.remotePatterns (NextConfig.nextConfig process_env) !! 1%nat
  = Some (NextConfig.mkRemotePattern "https" host).
Proof.
  intros Hscheme Hurl. unfold NextConfig.nextConfig, NextConfig.env_truthy. simpl.
  rewrite Hurl.
  destruct Hscheme as [-> | ->]; simpl.
  - by rewrite strip_protocol_https.
  - by rewrite strip_protocol_http.
Qed.

(** X25: whatever the environment, the configuration allows five or six remote
    hosts: [localhost] over http and every other host over https only, the
    three storage hosts among them; the sixth, the MinIO endpoint without
    its scheme, is there exactly when the environment names a non-empty
    one, and then it comes last. *)
Theorem remote_patterns_are_https_except_localhost (process_env : gmap string string) :
  let patterns := NextConfig.remotePatterns (NextConfig.nextConfig process_env) in
  Forall (λ p, p = NextConfig.mkRemotePattern "http" "localhost"
               ∨ NextConfig.protocol p = "https") patterns
  ∧ patterns !! 0%nat = Some (NextConfig.mkRemotePattern "http" "localhost")
  ∧ NextConfig.mkRemotePattern "https" "medusa-public-images.s3.eu-west-1.amazonaws.com"
    ∈ patterns
  ∧ NextConfig.mkRemotePattern "https" "medusa-server-testing.s3.amazonaws.com" ∈ patterns
  ∧ NextConfig.mkRemotePattern "https" "medusa-server-testing.s3.us-east-1.amazonaws.com"
    ∈ patterns
  ∧ match NextConfig.env_truthy process_env "NEXT_PUBLIC_MINIO_ENDPOINT" with
    | Some endpoint =>
        length patterns = 6%nat
        ∧ patterns !! 5%nat
          = Some (NextConfig.mkRemotePattern "https" (NextConfig.strip_protocol endpoint))
    | None => length patterns = 5%nat
    end.
Proof.
  intros patterns. subst patterns. unfold NextConfig.nextConfig. simpl.
  destruct (NextConfig.env_truthy process_env "NEXT_PUBLIC_MINIO_ENDPOINT") as [endpoint|];
    simpl.
  - split; [repeat constructor; by right|].
    repeat split; try done; set_solver.
  - split; [repeat constructor; by right|].
    repeat split; try done; set_solver.
Qed.

(** ** The further properties, at work *)

(** X7 at work: a capture the processor answers with a status keeps the QR code of the
    session. *)
Lemma capture_keeps_what_the_answer_leaves_witness :
  let session := {[ "id" := JStr "fp_1"; "qr_code_url" := JStr "https://x/y" ]} in
  let answer := {[ "status" := JStr "captured" ]} in
  ∃ captured : gmap string JsVal,
    fst (FoxPay.capturePayment
           (runtime:=sample_runtime) (processor:=scripted [json_answer 200 (JObj answer)])
           (FoxPay.mkOptions "key" None) session (fresh_world 0))
    = Return (JObj captured)
    ∧ captured !! "qr_code_url" = Some (JStr "https://x/y")
    ∧ captured !! "status" = Some (JStr "captured").
Proof.
  intros session answer.
  destruct (capture_keeps_what_the_answer_leaves
              (runtime:=sample_runtime) (processor:=scripted [json_answer 200 (JObj answer)])
              (FoxPay.mkOptions "key" None) session answer (fresh_world 0)
              (mkResponse 200 (Return (sample_stringify (JObj answer))) (Return (JObj answer))))
    as (captured & Hrun & Hlookup); [reflexivity|reflexivity|reflexivity|].
  exists captured. split; [exact Hrun|]. rewrite !Hlookup. split; vm_compute; reflexivity.
Defined.

(** X8 at work: a refund of 250 the processor answers with a status keeps the id. *)
Lemma refund_keeps_what_the_answer_leaves_witness :
  let session := {[ "id" := JStr "fp_1" ]} in
  let answer := {[ "status" := JStr "refunded" ]} in
  ∃ refunded : gmap string JsVal,
    fst (FoxPay.refundPayment
           (runtime:=sample_runtime) (processor:=scripted [json_answer 200 (JObj answer)])
           (FoxPay.mkOptions "key" None) session (JNum 250) (fresh_world 0))
    = Return (JObj refunded)
    ∧ refunded !! "id" = Some (JStr "fp_1").
Proof.
  intros session answer.
  destruct (refund_keeps_what_the_answer_leaves
              (runtime:=sample_runtime) (processor:=scripted [json_answer 200 (JObj answer)])
              (FoxPay.mkOptions "key" None) session answer (JNum 250) (fresh_world 0)
              (mkResponse 200 (Return (sample_stringify (JObj answer))) (Return (JObj answer))))
    as (refunded & Hrun & Hlookup); [reflexivity|reflexivity|reflexivity|].
  exists refunded. split; [by rewrite Hrun|]. rewrite Hlookup. vm_compute; reflexivity.
Defined.

(** X9 at work: deleting a session forgets its QR code. *)
Lemma delete_cancels_and_forgets_the_session_witness :
  let session := {[ "id" := JStr "fp_1"; "qr_code_url" := JStr "https://x/y" ]} in
  let answer := {[ "status" := JStr "canceled" ]} in
  ∃ deleted : gmap string JsVal,
    fst (FoxPay.deletePayment
           (runtime:=sample_runtime) (processor:=scripted [json_answer 200 (JObj answer)])
           (FoxPay.mkOptions "key" None) session (fresh_world 0))
    = Return (JObj deleted)
    ∧ deleted !! "qr_code_url" = None
    ∧ deleted !! "id" = Some (JStr "fp_1").
Proof.
  intros session answer.
  destruct (delete_cancels_and_forgets_the_session
              (runtime:=sample_runtime) (processor:=scripted [json_answer 200 (JObj answer)])
              (FoxPay.mkOptions "key" None) session (fresh_world 0)) as [_ Hforget].
  destruct (Hforget
              (mkResponse 200 (Return (sample_stringify (JObj answer))) (Return (JObj answer)))
              answer) as (deleted & Hrun & Hlookup);
    [vm_compute; reflexivity|reflexivity|reflexivity|].
  exists deleted. split; [exact Hrun|]. rewrite !Hlookup. split; vm_compute; reflexivity.
Defined.

(** X10 at work: two sessions with the id [fp_1] and different QR codes. *)
Lemma retrieve_and_status_read_only_the_id_witness :
  FoxPay.getPaymentStatus
    (runtime:=sample_runtime) (processor:=scripted [])
    (FoxPay.mkOptions "key" None)
    {[ "id" := JStr "fp_1"; "qr_code_url" := JStr "https://x/y" ]} (fresh_world 0)
  = FoxPay.getPaymentStatus
      (runtime:=sample_runtime) (processor:=scripted [])
      (FoxPay.mkOptions "key" None)
      {[ "id" := JStr "fp_1"; "qr_code_url" := JStr "https://x/z" ]} (fresh_world 0).
Proof.
  eapply proj2, (retrieve_and_status_read_only_the_id
                   (runtime:=sample_runtime) (processor:=scripted [])).
  vm_compute; reflexivity.
Defined.

(** X11 at work: an update the processor answers without an id. *)
Lemma update_takes_the_id_from_the_answer_witness :
  let ctx := FoxPay.mkUpdate (JNum 1200) "eur" (JObj {[ "cart_id" := JStr "cart_1" ]})
               {[ "id" := JStr "fp_1" ]} in
  let answer := {[ "status" := JStr "updated" ]} in
  ∃ updated,
    fst (FoxPay.updatePayment
           (runtime:=sample_runtime) (processor:=scripted [json_answer 200 (JObj answer)])
           (FoxPay.mkOptions "key" None) ctx (fresh_world 0))
    = Return updated
    ∧ prop (prop updated "data") "id" = JUndefined.
Proof.
  intros ctx answer.
  eapply (proj2 (update_takes_the_id_from_the_answer
                   (runtime:=sample_runtime)
                   (processor:=scripted [json_answer 200 (JObj answer)])
                   (FoxPay.mkOptions "key" None) ctx (fresh_world 0)
                   (mkResponse 200 (Return (sample_stringify (JObj answer)))
                      (Return (JObj answer)))
                   answer _ _ _)).
  vm_compute; reflexivity.
  Unshelve. all: reflexivity.
Defined.

(** X13 at work: a token answered without [expiresIn] is still used a long time after. *)
Lemma credential_without_expiresIn_never_expires_witness :
  let answer := JObj {[ "accessToken" := JStr "tok_1" ]} in
  let s1 := snd (CustomPaymentProvider.authenticate
                   (runtime:=sample_runtime) (processor:=scripted [json_answer 200 answer])
                   sample_instance (fresh_world 0)) in
  let s2 := mkSys 4102444800000 [] (accessToken s1) (tokenExpiry s1) in
  CustomPaymentProvider.ensureAuthenticated
    (runtime:=sample_runtime) (processor:=scripted [json_answer 200 answer])
    sample_instance s2
  = (Return tt, s2).
Proof.
  intros answer s1 s2.
  eapply (credential_without_expiresIn_never_expires
            (runtime:=sample_runtime) (processor:=scripted [json_answer 200 answer])
            sample_instance (fresh_world 0)
            (mkResponse 200 (Return (sample_stringify answer)) (Return answer))
            {[ "accessToken" := JStr "tok_1" ]}).
  - reflexivity.
  - reflexivity.
  - reflexivity.
  - vm_compute; reflexivity.
  - vm_compute; reflexivity.
Defined.

(** X14 at work: an empty token with an hour of validity is asked for again at once. *)
Lemma falsy_token_is_asked_for_again_witness :
  let answer := JObj {[ "accessToken" := JStr EmptyString; "expiresIn" := JNum 3600 ]} in
  let s1 := snd (CustomPaymentProvider.authenticate
                   (runtime:=sample_runtime) (processor:=scripted [json_answer 200 answer])
                   sample_instance (fresh_world 0)) in
  new_requests s1
    (snd (CustomPaymentProvider.ensureAuthenticated
            (runtime:=sample_runtime) (processor:=scripted [json_answer 200 answer])
            sample_instance s1))
  = [token_request sample_instance].
Proof.
  intros answer s1.
  eapply (falsy_token_is_asked_for_again
            (runtime:=sample_runtime) (processor:=scripted [json_answer 200 answer])
            sample_instance (fresh_world 0)
            (mkResponse 200 (Return (sample_stringify answer)) (Return answer))
            {[ "accessToken" := JStr EmptyString; "expiresIn" := JNum 3600 ]}).
  - reflexivity.
  - reflexivity.
  - reflexivity.
  - vm_compute; reflexivity.
Defined.

(** X16 at work: a token endpoint that answers 401 stops a refund before it is sent. *)
Lemma failed_authentication_stops_the_operation_witness :
  new_requests (fresh_world 0)
    (snd (CustomPaymentProvider.refundPayment
            (runtime:=sample_runtime) (processor:=scripted [json_answer 401 (JObj ∅)])
            sample_instance sample_payment (JNum 250) (fresh_world 0)))
  = [token_request sample_instance].
Proof.
  destruct (failed_authentication_stops_the_operation
              (runtime:=sample_runtime) (processor:=scripted [json_answer 401 (JObj ∅)])
              ∅ sample_instance (JObj sample_cart) sample_payment (JNum 250) sample_payment
              (fresh_world 0)
              (mkResponse 401 (Return (sample_stringify (JObj ∅))) (Return (JObj ∅))))
    as (_ & -> & _).
  - left. vm_compute. discriminate.
  - reflexivity.
  - reflexivity.
  - vm_compute; reflexivity.
Defined.

(** X17 at work: a cart that has only an id. *)
Lemma createPayment_needs_region_and_currency_witness :
  ∃ msg,
    CustomPaymentProvider.createPayment
      (runtime:=sample_runtime) (processor:=scripted []) ∅ sample_instance
      (JObj {[ "id" := JStr "cart_1" ]}) authenticated_world
    = (Throw (TypeError msg), authenticated_world).
Proof.
  eapply (createPayment_needs_region_and_currency
            (runtime:=sample_runtime) (processor:=scripted [])).
  - vm_compute; reflexivity.
  - vm_compute. discriminate.
  - left. vm_compute; reflexivity.
Defined.

(** X18 at work: a payment that has only a status. *)
Lemma refund_and_status_need_payment_data_witness :
  returned (fst (CustomPaymentProvider.getStatus
                   (runtime:=sample_runtime) (processor:=scripted []) sample_instance
                   (JObj {[ "status" := JStr "captured" ]}) authenticated_world))
  = false.
Proof.
  destruct (refund_and_status_need_payment_data
              (runtime:=sample_runtime) (processor:=scripted []) sample_instance
              {[ "status" := JStr "captured" ]} (JNum 250) authenticated_world)
    as (_ & ->).
  - vm_compute; reflexivity.
  - vm_compute. discriminate.
  - vm_compute; reflexivity.
  - reflexivity.
Defined.




(** X24 at work: a backend at [https://shop.example.org]. *)
Lemma backend_pattern_is_the_host_of_the_url_witness :
  NextConfig.remotePatterns
    (NextConfig.nextConfig
       {[ "NEXT_PUBLIC_MEDUSA_BACKEND_URL" := "https://shop.example.org" ]}) !! 1%nat
  = Some (NextConfig.mkRemotePattern "https" "shop.example.org").
Proof.
  eapply (backend_pattern_is_the_host_of_the_url _ "https://" "shop.example.org").
  - by left.
  - vm_compute; reflexivity.
Defined.
